(** * GitHub OAuth route handlers of the moderator dashboard

    A shallow embedding of the two Next.js route handlers

    - [app/api/github/callback/route.ts]  (module [Callback]), and
    - the authorize route                  (module [Authorize]),

    together with the fragment of JavaScript they rely on: JSON values,
    truthiness, property access, [fetch] and the [NextResponse] helpers.

    The handlers are [async] functions that [await] every call in sequence;
    they are embedded in a state-and-exception monad whose state records what
    the handler did to the outside world (the outbound requests, the lines
    written with [console.error]). *)

From Stdlib Require Import ZArith List String Ascii Bool Lia DecimalString.
Import ListNotations.

Local Open Scope string_scope.
Local Open Scope Z_scope.

Set Warnings "-register-all".

(* ================================================================== *)
(** ** JavaScript values *)

Module JS.

(** The values a JSON document denotes, plus [undefined] (what reading a
    missing property yields).  Numbers are the integers: the only numbers
    the protocol carries are account identifiers, and the only thing the
    handlers ask of a number is whether it is zero. *)
Inductive value : Type :=
| Undefined
| Null
| Bool (b : bool)
| Num (n : Z)
| Str (s : string)
| Arr (elems : list value)
| Obj (props : list (string * value)).

(** ToBoolean: what [!v] and [if (v)] look at. *)
Definition truthy (v : value) : bool :=
  match v with
  | Undefined | Null => false
  | Bool b => b
  | Num n => negb (n =? 0)
  | Str s => negb (s =? "")%string
  | Arr _ | Obj _ => true
  end.

Definition string_of_Z (n : Z) : string :=
  NilZero.string_of_int (Z.to_int n).

(** ToString, as a template literal applies it. *)
Fixpoint toString (v : value) : string :=
  match v with
  | Undefined => "undefined"
  | Null => "null"
  | Bool true => "true"
  | Bool false => "false"
  | Num n => string_of_Z n
  | Str s => s
  | Arr elems =>
      (fix join (l : list value) : string :=
         match l with
         | [] => ""
         | x :: r =>
             let sx := match x with
                       | Undefined | Null => ""
                       | _ => toString x
                       end in
             match r with
             | [] => sx
             | _ :: _ => sx ++ "," ++ join r
             end
         end) elems
  | Obj _ => "[object Object]"
  end.

(** What the handlers can throw. *)
Inductive exn : Type :=
| Error (msg : string)       (* [throw new Error(msg)] *)
| TypeError (msg : string)   (* property of null/undefined, call of a non-function, failed fetch *)
| SyntaxError.               (* [response.json()] on a body that is not JSON *)

Definition lookup (k : string) (props : list (string * value)) : value :=
  match find (fun kv => (fst kv =? k)%string) props with
  | Some kv => snd kv
  | None => Undefined
  end.

(** [v.k] for the property names the handlers read ([access_token],
    [email], [id], [login], [primary]); no prototype defines any of them,
    so on a primitive or an array the result is [undefined]. *)
Definition getProp (v : value) (k : string) : exn + value :=
  match v with
  | Undefined => inl (TypeError "Cannot read properties of undefined")
  | Null => inl (TypeError "Cannot read properties of null")
  | Obj props => inr (lookup k props)
  | _ => inr Undefined
  end.

(** [v?.k] *)
Definition getPropOpt (v : value) (k : string) : exn + value :=
  match v with
  | Undefined | Null => inr Undefined
  | _ => getProp v k
  end.

(** [Array.prototype.find] with a callback that may throw: the elements
    are visited in order and the first one the callback accepts is the
    result, [undefined] when there is none. *)
Fixpoint find_elem (cb : value -> exn + bool) (l : list value) : exn + value :=
  match l with
  | [] => inr Undefined
  | e :: r =>
      match cb e with
      | inl x => inl x
      | inr true => inr e
      | inr false => find_elem cb r
      end
  end.

(** [v.find(cb)]: only arrays have a [find] method. *)
Definition Array_find (v : value) (cb : value -> exn + bool) : exn + value :=
  match v with
  | Undefined => inl (TypeError "Cannot read properties of undefined")
  | Null => inl (TypeError "Cannot read properties of null")
  | Arr elems => find_elem cb elems
  | _ => inl (TypeError "find is not a function")
  end.

(** [JSON.stringify], up to the concrete text: the result is represented
    by the value its text denotes.  A property whose value is [undefined]
    is left out, an [undefined] array element is written [null]. *)
Fixpoint JSON_stringify (v : value) : value :=
  match v with
  | Arr elems =>
      Arr ((fix go (l : list value) : list value :=
              match l with
              | [] => []
              | Undefined :: r => Null :: go r
              | x :: r => JSON_stringify x :: go r
              end) elems)
  | Obj props =>
      Obj ((fix go (l : list (string * value)) : list (string * value) :=
              match l with
              | [] => []
              | (_, Undefined) :: r => go r
              | (k, x) :: r => (k, JSON_stringify x) :: go r
              end) props)
  | _ => v
  end.

End JS.

(* ================================================================== *)
(** ** The outside world: HTTP exchanges and the handler monad *)

Inductive Body : Type :=
| NoBody
| FormBody (params : list (string * string))   (* [new URLSearchParams({...})] *)
| JsonBody (doc : JS.value).                    (* [JSON.stringify({...})] *)

Record HttpRequest : Type := mkRequest {
  url : string;
  method : string;
  req_headers : list (string * string);
  body : Body
}.

Record HttpResponse : Type := mkResponse {
  status : Z;
  payload : option JS.value   (* [None]: the body is not a JSON document *)
}.

(** [response.ok] *)
Definition ok (r : HttpResponse) : bool :=
  (200 <=? status r) && (status r <=? 299).

Inductive FetchOutcome : Type :=
| Rejected                       (* the promise rejects: network failure *)
| Resolved (r : HttpResponse).

(** The provider and the backend, as seen from the handler. *)
Definition World : Type := HttpRequest -> FetchOutcome.

(** What a handler run leaves behind besides its response. *)
Record Effects : Type := mkEffects {
  fetches : list HttpRequest;             (* outbound calls, oldest first *)
  console : list (string * JS.exn)        (* [console.error] lines *)
}.

Definition no_effects : Effects := {| fetches := []; console := [] |}.

Definition M (A : Type) : Type := Effects -> (JS.exn + A) * Effects.

Definition ret {A} (a : A) : M A := fun st => (inr a, st).

Definition throw {A} (e : JS.exn) : M A := fun st => (inl e, st).

Definition bind {A B} (m : M A) (k : A -> M B) : M B :=
  fun st =>
    match m st with
    | (inl e, st') => (inl e, st')
    | (inr a, st') => k a st'
    end.

(** [try { body } catch (error) { handler }] *)
Definition try_catch {A} (m : M A) (handler : JS.exn -> M A) : M A :=
  fun st =>
    match m st with
    | (inl e, st') => handler e st'
    | (inr a, st') => (inr a, st')
    end.

(** An exchange that did not succeed: the call was rejected, or answered
    with a status outside 200-299. *)
Definition refused (o : FetchOutcome) : Prop :=
  o = Rejected \/ exists r, o = Resolved r /\ ok r = false.

(** A pure JavaScript operation that may throw. *)
Definition lift {A} (r : JS.exn + A) : M A :=
  fun st => (r, st).

Declare Scope js_scope.
Delimit Scope js_scope with js.
Notation "x <- m ;; k" := (bind m (fun x => k))
  (at level 100, m at next level, right associativity) : js_scope.
Notation "m ;;; k" := (bind m (fun _ => k))
  (at level 100, right associativity) : js_scope.
Local Open Scope js_scope.

(** The effects, with the requests [rqs] sent after those already there. *)
Definition sent (rqs : list HttpRequest) (st : Effects) : Effects :=
  {| fetches := fetches st ++ rqs; console := console st |}.

(** The effects, with one more line on the console. *)
Definition logged (label : string) (e : JS.exn) (st : Effects) : Effects :=
  {| fetches := fetches st; console := console st ++ [(label, e)] |}.

(** [await fetch(...)] *)
Definition fetch (world : World) (rq : HttpRequest) : M HttpResponse :=
  fun st =>
    match world rq with
    | Rejected => (inl (JS.TypeError "fetch failed"), sent [rq] st)
    | Resolved r => (inr r, sent [rq] st)
    end.

(** [await response.json()] *)
Definition json (r : HttpResponse) : M JS.value :=
  match payload r with
  | Some v => ret v
  | None => throw JS.SyntaxError
  end.

(** [console.error(label, error)] *)
Definition console_error (label : string) (e : JS.exn) : M unit :=
  fun st => (inr tt, logged label e st).

(* ================================================================== *)
(** ** Next.js requests and responses, process environment *)

Record URL : Type := mkURL {
  origin : string;
  pathname : string;
  searchParams : list (string * string)
}.

(** [searchParams.get(k)]: the first value of [k], [null] when there is none. *)
Definition searchParams_get (params : list (string * string)) (k : string)
  : option string :=
  match find (fun kv => (fst kv =? k)%string) params with
  | Some kv => Some (snd kv)
  | None => None
  end.

Record NextRequest : Type := mkNextRequest {
  nextUrl : URL;                          (* [request.url], parsed *)
  headers : list (string * string)
}.

(** [headers.get(k)] *)
Definition headers_get (hs : list (string * string)) (k : string) : option string :=
  searchParams_get hs k.

(** [!v] for a [string | null] (or [string | undefined]). *)
Definition falsy_string (v : option string) : bool :=
  match v with
  | None => true
  | Some s => (s =? "")%string
  end.

(** [new URL(rel, request.url)], serialized, for a reference [rel] that
    starts with "/": path and query of the base are replaced. *)
Definition new_URL (rel : string) (base : URL) : string :=
  origin base ++ rel.

Record Cookie : Type := mkCookie {
  name : string;
  value : JS.value;
  httpOnly : bool;
  secure : bool;
  sameSite : string;
  path : string;
  maxAge : Z
}.

Record NextResponse : Type := mkNextResponse {
  res_status : Z;
  res_location : option string;    (* the [Location] header *)
  res_json : option JS.value;      (* the JSON body, if any *)
  res_cookies : list Cookie        (* one [Set-Cookie] each *)
}.

(** [NextResponse.redirect(url)]: a temporary redirect. *)
Definition NextResponse_redirect (target : string) : NextResponse :=
  {| res_status := 307; res_location := Some target;
     res_json := None; res_cookies := [] |}.

(** [NextResponse.json(doc, { status })] *)
Definition NextResponse_json (doc : JS.value) (st : Z) : NextResponse :=
  {| res_status := st; res_location := None;
     res_json := Some doc; res_cookies := [] |}.

(** [response.cookies.set(...)]: a cookie of the same name is replaced. *)
Definition cookies_set (c : Cookie) (resp : NextResponse) : NextResponse :=
  {| res_status := res_status resp;
     res_location := res_location resp;
     res_json := res_json resp;
     res_cookies :=
       filter (fun c' => negb (name c' =? name c)%string) (res_cookies resp) ++ [c] |}.

(** [process.env] *)
Record ProcessEnv : Type := mkEnv {
  GITHUB_CLIENT_ID : option string;
  GITHUB_CLIENT_SECRET : option string;
  NEXT_PUBLIC_API_URL : option string;
  NODE_ENV : option string
}.

(** An environment variable turned into a string where one is expected:
    [undefined] becomes the text "undefined". *)
Definition env_toString (v : option string) : string :=
  match v with
  | Some s => s
  | None => "undefined"
  end.

(** [v || dflt] on strings *)
Definition or_else (v : option string) (dflt : string) : string :=
  match v with
  | Some s => if (s =? "")%string then dflt else s
  | None => dflt
  end.

(* ================================================================== *)
(** ** The callback handler: [app/api/github/callback/route.ts] *)

Module Callback.

Definition error_target : string := "/login?error=github_oauth_failed".
Definition success_target : string := "/moderator".

Section Handler.

Variable env : ProcessEnv.
Variable world : World.
Variable request : NextRequest.

(** The request of lines 16-28. *)
Definition tokenRequest (code : string) : HttpRequest :=
  {| url := "https://github.com/login/oauth/access_token";
     method := "POST";
     req_headers :=
       [("Accept", "application/json");
        ("Content-Type", "application/x-www-form-urlencoded")];
     body :=
       FormBody
         [("client_id", env_toString (GITHUB_CLIENT_ID env));
          ("client_secret", env_toString (GITHUB_CLIENT_SECRET env));
          ("code", code);
          ("redirect_uri", origin (nextUrl request) ++ "/api/github/callback")] |}.

(** The request of lines 37-41. *)
Definition userRequest (access_token : JS.value) : HttpRequest :=
  {| url := "https://api.github.com/user";
     method := "GET";
     req_headers := [("Authorization", "token " ++ JS.toString access_token)];
     body := NoBody |}.

(** The request of lines 52-56. *)
Definition emailsRequest (access_token : JS.value) : HttpRequest :=
  {| url := "https://api.github.com/user/emails";
     method := "GET";
     req_headers := [("Authorization", "token " ++ JS.toString access_token)];
     body := NoBody |}.

(** Line 70. *)
Definition backendUrl : string :=
  or_else (NEXT_PUBLIC_API_URL env) "http://localhost:8000".

(** The request of lines 71-82. *)
Definition backendRequest (access_token email id login : JS.value) : HttpRequest :=
  {| url := backendUrl ++ "/api/auth/github-oauth";
     method := "POST";
     req_headers := [("Content-Type", "application/json")];
     body :=
       JsonBody
         (JS.JSON_stringify
            (JS.Obj [("access_token", access_token);
                     ("email", email);
                     ("github_id", id);
                     ("username", login)])) |}.

(** Lines 16-34: the token exchange; the result is [tokenData]. *)
Definition exchangeToken (code : string) : M JS.value :=
  tokenResponse <- fetch world (tokenRequest code) ;;
  tokenData <- json tokenResponse ;;
  failed <- (if negb (ok tokenResponse) then ret true
             else access_token <- lift (JS.getProp tokenData "access_token") ;;
                  ret (negb (JS.truthy access_token))) ;;
  if failed : bool then throw (JS.Error "Failed to get access token")
  else ret tokenData.

(** Lines 37-47: the profile fetch; the result is [userData]. *)
Definition fetchProfile (tokenData : JS.value) : M JS.value :=
  access_token <- lift (JS.getProp tokenData "access_token") ;;
  userResponse <- fetch world (userRequest access_token) ;;
  userData <- json userResponse ;;
  if negb (ok userResponse) then throw (JS.Error "Failed to get user data")
  else ret userData.

(** The callback of line 60: [(e: any) => e.primary], as a test. *)
Definition is_primary (e : JS.value) : JS.exn + bool :=
  match JS.getProp e "primary" with
  | inl x => inl x
  | inr p => inr (JS.truthy p)
  end.

(** Lines 52-62: the lookup in the account's email list, entered with
    the falsy [email] read from the profile. *)
Definition lookupPrimaryEmail (tokenData email : JS.value) : M JS.value :=
  access_token <- lift (JS.getProp tokenData "access_token") ;;
  emailsResponse <- fetch world (emailsRequest access_token) ;;
  if ok emailsResponse then
    emails <- json emailsResponse ;;
    primaryEmail <- lift (JS.Array_find emails is_primary) ;;
    lift (JS.getPropOpt primaryEmail "email")
  else ret email.

(** Lines 50-63: the value of [email] after the [if (!email)] block. *)
Definition resolveEmail (tokenData userData : JS.value) : M JS.value :=
  email <- lift (JS.getProp userData "email") ;;
  if negb (JS.truthy email) then lookupPrimaryEmail tokenData email
  else ret email.

(** Lines 65-67. *)
Definition requireEmail (email : JS.value) : M unit :=
  if negb (JS.truthy email) then throw (JS.Error "Email is required")
  else ret tt.

(** Lines 70-86: the handoff to the backend; the result is [authResponse]. *)
Definition backendHandoff (tokenData email userData : JS.value) : M HttpResponse :=
  access_token <- lift (JS.getProp tokenData "access_token") ;;
  id <- lift (JS.getProp userData "id") ;;
  login <- lift (JS.getProp userData "login") ;;
  authResponse <- fetch world (backendRequest access_token email id login) ;;
  if negb (ok authResponse) then throw (JS.Error "Backend authentication failed")
  else ret authResponse.

(** The cookie of lines 93-99. *)
Definition authCookie (token : JS.value) : Cookie :=
  {| name := "auth_token";
     value := token;
     httpOnly := true;
     secure := match NODE_ENV env with
               | Some mode => (mode =? "production")%string
               | None => false
               end;
     sameSite := "lax";
     path := "/";
     maxAge := 60 * 60 * 24 * 7 |}.

(** Lines 88-101: the session is established. *)
Definition establishSession (authResponse : HttpResponse) : M NextResponse :=
  authData <- json authResponse ;;
  let response := NextResponse_redirect (new_URL success_target (nextUrl request)) in
  token <- lift (JS.getProp authData "access_token") ;;
  ret (cookies_set (authCookie token) response).

(** Lines 15-101: the body of the [try] block. *)
Definition flow (code : string) : M NextResponse :=
  tokenData <- exchangeToken code ;;
  userData <- fetchProfile tokenData ;;
  email <- resolveEmail tokenData userData ;;
  requireEmail email ;;;
  authResponse <- backendHandoff tokenData email userData ;;
  establishSession authResponse.

(** Lines 103-108: the [catch] block. *)
Definition on_error (error : JS.exn) : M NextResponse :=
  console_error "GitHub OAuth error:" error ;;;
  ret (NextResponse_redirect (new_URL error_target (nextUrl request))).

(** Lines 3-109: the handler. *)
Definition GET : M NextResponse :=
  let searchParams := searchParams (nextUrl request) in
  let code := searchParams_get searchParams "code" in
  let state := searchParams_get searchParams "state" in
  match code with
  | Some c =>
      if (c =? "")%string
      then ret (NextResponse_redirect (new_URL error_target (nextUrl request)))
      else try_catch (flow c) on_error
  | None => ret (NextResponse_redirect (new_URL error_target (nextUrl request)))
  end.

(** *** The exchanges of a run, read off the world *)

(** The provider answered the token request with success and a document
    whose [access_token] is truthy. *)
Definition token_granted (code : string) (tokenData access_token : JS.value) : Prop :=
  exists r, world (tokenRequest code) = Resolved r /\ ok r = true /\
            payload r = Some tokenData /\
            JS.getProp tokenData "access_token" = inr access_token /\
            JS.truthy access_token = true.

(** The provider answered the profile request with success and [userData]. *)
Definition profile_fetched (access_token userData : JS.value) : Prop :=
  exists r, world (userRequest access_token) = Resolved r /\ ok r = true /\
            payload r = Some userData.

(** The provider answered the email-list request with success and [emails]. *)
Definition emails_listed (access_token emails : JS.value) : Prop :=
  exists r, world (emailsRequest access_token) = Resolved r /\ ok r = true /\
            payload r = Some emails.

(** The three ways in which the email resolution of lines 50-63 completes,
    and the value [email] holds afterwards. *)
Inductive email_resolved (access_token userData : JS.value) : JS.value -> Prop :=
| public_email email :
    JS.getProp userData "email" = inr email ->
    JS.truthy email = true ->
    email_resolved access_token userData email
| listed_email email0 emails entry email :
    JS.getProp userData "email" = inr email0 ->
    JS.truthy email0 = false ->
    emails_listed access_token emails ->
    JS.Array_find emails is_primary = inr entry ->
    JS.getPropOpt entry "email" = inr email ->
    email_resolved access_token userData email
| lookup_skipped email0 r :
    JS.getProp userData "email" = inr email0 ->
    JS.truthy email0 = false ->
    world (emailsRequest access_token) = Resolved r ->
    ok r = false ->
    email_resolved access_token userData email0.

(** The steps up to the email check went through: token, profile, and an
    email that is truthy. *)
Definition identity_established
  (code : string) (access_token userData email : JS.value) : Prop :=
  (exists tokenData, token_granted code tokenData access_token) /\
  profile_fetched access_token userData /\
  email_resolved access_token userData email /\
  JS.truthy email = true.

(** The failures of steps 1-5. *)
Inductive flow_failure (code : string) (st : Effects) : Prop :=
| exchange_refused :
    refused (world (tokenRequest code)) ->
    flow_failure code st
| exchange_without_token r tokenData t :
    world (tokenRequest code) = Resolved r ->
    payload r = Some tokenData ->
    JS.getProp tokenData "access_token" = inr t ->
    JS.truthy t = false ->
    flow_failure code st
| profile_refused tokenData access_token :
    token_granted code tokenData access_token ->
    refused (world (userRequest access_token)) ->
    flow_failure code st
| email_missing tokenData access_token userData email :
    token_granted code tokenData access_token ->
    profile_fetched access_token userData ->
    email_resolved access_token userData email ->
    JS.truthy email = false ->
    flow_failure code st
| backend_refused access_token userData email id login :
    identity_established code access_token userData email ->
    JS.getProp userData "id" = inr id ->
    JS.getProp userData "login" = inr login ->
    refused (world (backendRequest access_token email id login)) ->
    flow_failure code st
| session_failed access_token userData email id login r :
    identity_established code access_token userData email ->
    JS.getProp userData "id" = inr id ->
    JS.getProp userData "login" = inr login ->
    world (backendRequest access_token email id login) = Resolved r ->
    ok r = true ->
    payload r = None \/ payload r = Some JS.Null ->
    flow_failure code st
| raised e st' :
    flow code st = (inl e, st') ->
    flow_failure code st.

End Handler.

(** The response of both failure exits (lines 9-11 and 105-107). *)
Definition error_redirect (request : NextRequest) : NextResponse :=
  NextResponse_redirect (new_URL error_target (nextUrl request)).

(** Two requests that differ at most in their [state] parameters. *)
Definition without_state (params : list (string * string)) : list (string * string) :=
  filter (fun kv => negb (fst kv =? "state")%string) params.

Definition same_up_to_state (r1 r2 : NextRequest) : Prop :=
  origin (nextUrl r1) = origin (nextUrl r2) /\
  pathname (nextUrl r1) = pathname (nextUrl r2) /\
  without_state (searchParams (nextUrl r1)) = without_state (searchParams (nextUrl r2)) /\
  headers r1 = headers r2.

End Callback.

(* ================================================================== *)
(** ** The authorize handler *)

Module Authorize.

(** One hexadecimal digit, upper case. *)
Definition hex_digit (n : nat) : ascii :=
  match n with
  | 0 => "0" | 1 => "1" | 2 => "2" | 3 => "3" | 4 => "4" | 5 => "5"
  | 6 => "6" | 7 => "7" | 8 => "8" | 9 => "9" | 10 => "A" | 11 => "B"
  | 12 => "C" | 13 => "D" | 14 => "E" | _ => "F"
  end%char%nat.

(** The bytes the urlencoded serializer leaves alone: ASCII letters and
    digits and the four characters of "*-._". *)
Definition unreserved (c : ascii) : bool :=
  let n := nat_of_ascii c in
  ((48 <=? n) && (n <=? 57) || (65 <=? n) && (n <=? 90) || (97 <=? n) && (n <=? 122)
   || (n =? 42) || (n =? 45) || (n =? 46) || (n =? 95))%nat.

(** The application/x-www-form-urlencoded byte serializer, which
    [URLSearchParams] applies to names and values. *)
Fixpoint urlencode (s : string) : string :=
  match s with
  | EmptyString => EmptyString
  | String c r =>
      if unreserved c then String c (urlencode r)
      else if (c =? " ")%char then String "+" (urlencode r)
      else let n := nat_of_ascii c in
           String "%" (String (hex_digit (n / 16)) (String (hex_digit (n mod 16))
                                                      (urlencode r)))
  end%nat.

Fixpoint serialize (params : list (string * string)) : string :=
  match params with
  | [] => ""
  | [(k, v)] => urlencode k ++ "=" ++ urlencode v
  | (k, v) :: r => urlencode k ++ "=" ++ urlencode v ++ "&" ++ serialize r
  end.

(** [searchParams.set(k, v)]: the first pair named [k] takes the value,
    later ones go; without such a pair, one is appended. *)
Fixpoint searchParams_set (params : list (string * string)) (k v : string)
  : list (string * string) :=
  match params with
  | [] => [(k, v)]
  | (k', v') :: r =>
      if (k' =? k)%string
      then (k, v) :: filter (fun kv => negb (fst kv =? k)%string) r
      else (k', v') :: searchParams_set r k v
  end.

(** [url.toString()] *)
Definition URL_toString (u : URL) : string :=
  match searchParams u with
  | [] => origin u ++ pathname u
  | ps => origin u ++ pathname u ++ "?" ++ serialize ps
  end.

(** [s.substring(n)] *)
Fixpoint substring_from (n : nat) (s : string) : string :=
  match n, s with
  | O, _ => s
  | S n', String _ r => substring_from n' r
  | S _, EmptyString => EmptyString
  end.

(** [new URL('https://github.com/login/oauth/authorize')] *)
Definition authorize_endpoint : URL :=
  {| origin := "https://github.com";
     pathname := "/login/oauth/authorize";
     searchParams := [] |}.

Definition with_param (u : URL) (k v : string) : URL :=
  {| origin := origin u;
     pathname := pathname u;
     searchParams := searchParams_set (searchParams u) k v |}.

(** The URL built in lines 14-22; [random36] stands for the text
    [Math.random().toString(36)] of this call. *)
Definition authUrl (clientId random36 : string) (request : NextRequest) : URL :=
  let origin :=
    or_else (headers_get (headers request) "origin")
      (or_else (headers_get (headers request) "referer") "http://localhost:3000") in
  let callbackUrl := origin ++ "/api/github/callback" in
  let u := authorize_endpoint in
  let u := with_param u "client_id" clientId in
  let u := with_param u "redirect_uri" callbackUrl in
  let u := with_param u "scope" "user:email" in
  with_param u "state" (substring_from 7 random36).

(** Lines 3-25: the handler. *)
Definition GET (env : ProcessEnv) (random36 : string) (request : NextRequest)
  : NextResponse :=
  match GITHUB_CLIENT_ID env with
  | Some clientId =>
      if (clientId =? "")%string
      then NextResponse_json
             (JS.Obj [("error", JS.Str "GITHUB_CLIENT_ID is not configured")]) 500
      else NextResponse_redirect (URL_toString (authUrl clientId random36 request))
  | None =>
      NextResponse_json
        (JS.Obj [("error", JS.Str "GITHUB_CLIENT_ID is not configured")]) 500
  end.

End Authorize.


(* ================================================================== *)
(** ** Observations on runs *)

(** The URLs of the outbound calls a callback run can make, in order, after
    the token request: nothing, the profile, then possibly the email list,
    then possibly the backend. *)
Definition later_calls (env : ProcessEnv) : list (list string) :=
  let U := "https://api.github.com/user" in
  let E := "https://api.github.com/user/emails" in
  let B := Callback.backendUrl env ++ "/api/auth/github-oauth" in
  [ []; [U]; [U; E]; [U; B]; [U; E; B] ].

(** The request, with other query parameters. *)
Definition with_searchParams (request : NextRequest) (params : list (string * string))
  : NextRequest :=
  {| nextUrl := {| origin := origin (nextUrl request);
                   pathname := pathname (nextUrl request);
                   searchParams := params |};
     headers := headers request |}.

(** The environment, with another client secret. *)
Definition with_secret (env : ProcessEnv) (secret : option string) : ProcessEnv :=
  {| GITHUB_CLIENT_ID := GITHUB_CLIENT_ID env;
     GITHUB_CLIENT_SECRET := secret;
     NEXT_PUBLIC_API_URL := NEXT_PUBLIC_API_URL env;
     NODE_ENV := NODE_ENV env |}.

(** The value of a field of a form-encoded request body. *)
Definition form_field (rq : HttpRequest) (k : string) : option string :=
  match body rq with
  | FormBody params => searchParams_get params k
  | _ => None
  end.

(** How often a character occurs in a text. *)
Fixpoint occurrences (c : ascii) (s : string) : nat :=
  match s with
  | EmptyString => O
  | String c' r => if (c' =? c)%char then S (occurrences c r) else occurrences c r
  end.

(* ================================================================== *)
(** ** Sample runs *)

Module Sample.

Definition env : ProcessEnv :=
  {| GITHUB_CLIENT_ID := Some "Iv1.8a61f9b3a7aba766";
     GITHUB_CLIENT_SECRET := Some "s3cret";
     NEXT_PUBLIC_API_URL := Some "https://api.b2b.example";
     NODE_ENV := Some "production" |}.

Definition request (params : list (string * string)) : NextRequest :=
  {| nextUrl := {| origin := "https://b2b.example";
                   pathname := "/api/github/callback";
                   searchParams := params |};
     headers := [("referer", "https://b2b.example/login")] |}.

Definition answer (st : Z) (doc : JS.value) : FetchOutcome :=
  Resolved {| status := st; payload := Some doc |}.

(** A world that answers by endpoint. *)
Definition world (token profile emails backend : FetchOutcome) : World :=
  fun rq =>
    if (url rq =? "https://github.com/login/oauth/access_token")%string then token
    else if (url rq =? "https://api.github.com/user")%string then profile
    else if (url rq =? "https://api.github.com/user/emails")%string then emails
    else backend.

Definition token_doc : JS.value := JS.Obj [("access_token", JS.Str "gho_16C7e42F")].

Definition profile_doc (email : JS.value) : JS.value :=
  JS.Obj [("login", JS.Str "octocat"); ("id", JS.Num 583231); ("email", email)].

Definition email_entry (address : string) (primary : bool) : JS.value :=
  JS.Obj [("email", JS.Str address); ("primary", JS.Bool primary);
          ("verified", JS.Bool true)].

Definition emails_doc : JS.value :=
  JS.Arr [email_entry "octocat@users.noreply.example" false;
          email_entry "octocat@b2b.example" true].

Definition session_doc : JS.value := JS.Obj [("access_token", JS.Str "T")].

End Sample.

(* ================================================================== *)
(** ** Properties of the monad and of the steps *)

Lemma bind_inr {A B} (m : M A) (k : A -> M B) st a st1 :
  m st = (inr a, st1) -> bind m k st = k a st1.
Proof. unfold bind; intros ->; reflexivity. Qed.

Lemma bind_inl {A B} (m : M A) (k : A -> M B) st e st1 :
  m st = (inl e, st1) -> bind m k st = (inl e, st1).
Proof. unfold bind; intros ->; reflexivity. Qed.

Lemma bind_inr_inv {A B} (m : M A) (k : A -> M B) st b st' :
  bind m k st = (inr b, st') ->
  exists a st1, m st = (inr a, st1) /\ k a st1 = (inr b, st').
Proof.
  unfold bind; destruct (m st) as [[e | a] st1]; intros H.
  - discriminate.
  - now exists a, st1.
Qed.

Lemma lift_inr_inv {A} (r : JS.exn + A) st a st' :
  lift r st = (inr a, st') -> r = inr a /\ st' = st.
Proof. unfold lift; intros H; inversion H; subst; auto. Qed.

(** [v.k] throws only when [v] is [null] or [undefined]. *)
Lemma getProp_defined v k x k' :
  JS.getProp v k = inr x -> exists y, JS.getProp v k' = inr y.
Proof. destruct v; cbn; intros H; try discriminate; eauto. Qed.

Lemma find_elem_first cb pre entry post :
  Forall (fun e => cb e = inr false) pre ->
  cb entry = inr true ->
  JS.find_elem cb (pre ++ entry :: post) = inr entry.
Proof.
  intros Hpre He; induction Hpre as [| e pre Hf _ IH]; cbn.
  - now rewrite He.
  - now rewrite Hf.
Qed.

Lemma find_elem_none cb l :
  Forall (fun e => cb e = inr false) l ->
  JS.find_elem cb l = inr JS.Undefined.
Proof.
  intros Hl; induction Hl as [| e l Hf _ IH]; cbn; [reflexivity |].
  now rewrite Hf.
Qed.

(** An entry the callback of line 60 accepts is an object, so its [email]
    can be read, with or without the [?.]. *)
Lemma is_primary_entry entry :
  Callback.is_primary entry = inr true ->
  exists address,
    JS.getProp entry "email" = inr address /\
    JS.getPropOpt entry "email" = inr address.
Proof.
  unfold Callback.is_primary.
  destruct entry; cbn; intros H; try discriminate; eauto.
Qed.

(** [JSON.stringify] keeps a property whose value is not [undefined]. *)
Lemma JSON_stringify_Obj_cons k v props :
  v <> JS.Undefined ->
  JS.JSON_stringify (JS.Obj ((k, v) :: props))
  = JS.Obj ((k, JS.JSON_stringify v)
              :: match JS.JSON_stringify (JS.Obj props) with
                 | JS.Obj props' => props'
                 | _ => []
                 end).
Proof. destruct v; intros H; try reflexivity. now elim H. Qed.

Lemma truthy_defined v : JS.truthy v = true -> v <> JS.Undefined.
Proof. intros H ->; discriminate. Qed.

Lemma sent_sent l1 l2 st : sent l2 (sent l1 st) = sent (l1 ++ l2) st.
Proof. unfold sent; cbn; now rewrite app_assoc. Qed.

Lemma sent_nil st : sent [] st = st.
Proof. destruct st; unfold sent; cbn; now rewrite app_nil_r. Qed.

Lemma refused_fetch world rq st :
  refused (world rq) ->
  (exists e, fetch world rq st = (inl e, sent [rq] st)) \/
  (exists r, fetch world rq st = (inr r, sent [rq] st) /\ ok r = false).
Proof.
  unfold fetch; intros [-> | (r & -> & Hr)]; [left | right]; eauto.
Qed.

Lemma resolved_fetch world rq st r :
  world rq = Resolved r -> fetch world rq st = (inr r, sent [rq] st).
Proof. unfold fetch; intros ->; reflexivity. Qed.

(** Closes a goal [exists e st', m st = (inl e, st')] by running [m]. *)
Ltac raises := do 2 eexists; reflexivity.

(** Runs a computation of the handler to its leaves: every [match] on a
    value the world or a document decides is split. *)
Ltac split_run :=
  repeat (cbn beta iota;
          match goal with
          | |- context [match ?x with _ => _ end] =>
              lazymatch x with
              | context [match _ with _ => _ end] => fail
              | _ => destruct x eqn:?
              end
          end).

Section Steps.

Variable env : ProcessEnv.
Variable world : World.
Variable request : NextRequest.

Let tokenRequest := Callback.tokenRequest env request.
Let exchangeToken := Callback.exchangeToken env world request.
Let flow := Callback.flow env world request.

Lemma exchangeToken_granted code tokenData tok st :
  Callback.token_granted env world request code tokenData tok ->
  exchangeToken code st = (inr tokenData, sent [tokenRequest code] st).
Proof.
  intros (r & Hw & Hok & Hp & Hg & Ht).
  unfold exchangeToken, Callback.exchangeToken.
  rewrite (bind_inr _ _ _ _ _ (resolved_fetch _ _ st _ Hw)).
  unfold json; rewrite Hp, Hok; cbn.
  unfold bind, lift, ret; rewrite Hg, Ht; reflexivity.
Qed.

Lemma exchangeToken_refused code st :
  refused (world (tokenRequest code)) ->
  exists e st', exchangeToken code st = (inl e, st').
Proof.
  intros H; unfold exchangeToken, Callback.exchangeToken.
  destruct (refused_fetch _ _ st H) as [(e & He) | (r & Hr & Hok)].
  - rewrite (bind_inl _ _ _ _ _ He); eauto.
  - rewrite (bind_inr _ _ _ _ _ Hr).
    unfold json; destruct (payload r); cbn.
    + rewrite Hok; cbn; raises.
    + raises.
Qed.

Lemma exchangeToken_without_token code st r tokenData t :
  world (tokenRequest code) = Resolved r ->
  payload r = Some tokenData ->
  JS.getProp tokenData "access_token" = inr t ->
  JS.truthy t = false ->
  exists e st', exchangeToken code st = (inl e, st').
Proof.
  intros Hw Hp Hg Ht; unfold exchangeToken, Callback.exchangeToken.
  rewrite (bind_inr _ _ _ _ _ (resolved_fetch _ _ st _ Hw)).
  unfold json; rewrite Hp; cbn.
  destruct (ok r); cbn; [| raises].
  unfold bind, lift, ret; rewrite Hg, Ht; cbn; raises.
Qed.

Lemma fetchProfile_fetched tokenData tok userData st :
  JS.getProp tokenData "access_token" = inr tok ->
  Callback.profile_fetched world tok userData ->
  Callback.fetchProfile world tokenData st
  = (inr userData, sent [Callback.userRequest tok] st).
Proof.
  intros Hg (r & Hw & Hok & Hp).
  unfold Callback.fetchProfile, lift, bind at 1; rewrite Hg.
  rewrite (bind_inr _ _ _ _ _ (resolved_fetch _ _ st _ Hw)).
  unfold json; rewrite Hp, Hok; reflexivity.
Qed.

Lemma fetchProfile_refused tokenData tok st :
  JS.getProp tokenData "access_token" = inr tok ->
  refused (world (Callback.userRequest tok)) ->
  exists e st', Callback.fetchProfile world tokenData st = (inl e, st').
Proof.
  intros Hg H.
  unfold Callback.fetchProfile, lift, bind at 1; rewrite Hg.
  destruct (refused_fetch _ _ st H) as [(e & He) | (r & Hr & Hok)].
  - rewrite (bind_inl _ _ _ _ _ He); eauto.
  - rewrite (bind_inr _ _ _ _ _ Hr).
    unfold json; destruct (payload r); cbn.
    + rewrite Hok; cbn; raises.
    + raises.
Qed.

Lemma resolveEmail_public tokenData userData email st :
  JS.getProp userData "email" = inr email ->
  JS.truthy email = true ->
  Callback.resolveEmail world tokenData userData st = (inr email, st).
Proof.
  intros Hg Ht; unfold Callback.resolveEmail, bind, lift.
  now rewrite Hg, Ht.
Qed.

Lemma resolveEmail_falsy tokenData userData email0 st :
  JS.getProp userData "email" = inr email0 ->
  JS.truthy email0 = false ->
  Callback.resolveEmail world tokenData userData st
  = Callback.lookupPrimaryEmail world tokenData email0 st.
Proof.
  intros Hg Ht; unfold Callback.resolveEmail, bind, lift.
  now rewrite Hg, Ht.
Qed.

Lemma lookupPrimaryEmail_listed tokenData tok email0 emails entry email st :
  JS.getProp tokenData "access_token" = inr tok ->
  Callback.emails_listed world tok emails ->
  JS.Array_find emails Callback.is_primary = inr entry ->
  JS.getPropOpt entry "email" = inr email ->
  Callback.lookupPrimaryEmail world tokenData email0 st
  = (inr email, sent [Callback.emailsRequest tok] st).
Proof.
  intros Hg (r & Hw & Hok & Hp) Hf He.
  unfold Callback.lookupPrimaryEmail, lift, bind at 1; rewrite Hg.
  rewrite (bind_inr _ _ _ _ _ (resolved_fetch _ _ st _ Hw)).
  rewrite Hok; unfold json; rewrite Hp.
  unfold bind, ret; cbn beta; now rewrite Hf, He.
Qed.

Lemma lookupPrimaryEmail_skipped tokenData tok email0 r st :
  JS.getProp tokenData "access_token" = inr tok ->
  world (Callback.emailsRequest tok) = Resolved r ->
  ok r = false ->
  Callback.lookupPrimaryEmail world tokenData email0 st
  = (inr email0, sent [Callback.emailsRequest tok] st).
Proof.
  intros Hg Hw Hok.
  unfold Callback.lookupPrimaryEmail, lift, bind at 1; rewrite Hg.
  rewrite (bind_inr _ _ _ _ _ (resolved_fetch _ _ st _ Hw)).
  now rewrite Hok.
Qed.

Lemma resolveEmail_resolved tokenData tok userData email st :
  JS.getProp tokenData "access_token" = inr tok ->
  Callback.email_resolved world tok userData email ->
  exists rqs,
    Callback.resolveEmail world tokenData userData st = (inr email, sent rqs st).
Proof.
  intros Hg [e He Ht | e0 emails entry e He Ht Hl Hf Hm | e0 r He Ht Hw Hok].
  - exists []. rewrite sent_nil. now apply resolveEmail_public.
  - exists [Callback.emailsRequest tok].
    rewrite (resolveEmail_falsy _ _ _ _ He Ht).
    now apply lookupPrimaryEmail_listed with (emails := emails) (entry := entry).
  - exists [Callback.emailsRequest tok].
    rewrite (resolveEmail_falsy _ _ _ _ He Ht).
    now apply lookupPrimaryEmail_skipped with (r := r).
Qed.

Lemma requireEmail_truthy email st :
  JS.truthy email = true -> Callback.requireEmail email st = (inr tt, st).
Proof. unfold Callback.requireEmail; now intros ->. Qed.

Lemma requireEmail_falsy email st :
  JS.truthy email = false ->
  Callback.requireEmail email st = (inl (JS.Error "Email is required"), st).
Proof. unfold Callback.requireEmail; now intros ->. Qed.

Lemma backendHandoff_accepted tokenData tok userData email id login r st :
  JS.getProp tokenData "access_token" = inr tok ->
  JS.getProp userData "id" = inr id ->
  JS.getProp userData "login" = inr login ->
  world (Callback.backendRequest env tok email id login) = Resolved r ->
  ok r = true ->
  Callback.backendHandoff env world tokenData email userData st
  = (inr r, sent [Callback.backendRequest env tok email id login] st).
Proof.
  intros Hg Hi Hl Hw Hok.
  unfold Callback.backendHandoff, lift, bind at 1; rewrite Hg.
  unfold bind at 1; rewrite Hi. unfold bind at 1; rewrite Hl.
  rewrite (bind_inr _ _ _ _ _ (resolved_fetch _ _ st _ Hw)).
  now rewrite Hok.
Qed.

Lemma backendHandoff_refused tokenData tok userData email id login st :
  JS.getProp tokenData "access_token" = inr tok ->
  JS.getProp userData "id" = inr id ->
  JS.getProp userData "login" = inr login ->
  refused (world (Callback.backendRequest env tok email id login)) ->
  exists e,
    Callback.backendHandoff env world tokenData email userData st
    = (inl e, sent [Callback.backendRequest env tok email id login] st).
Proof.
  intros Hg Hi Hl H.
  unfold Callback.backendHandoff, lift, bind at 1; rewrite Hg.
  unfold bind at 1; rewrite Hi. unfold bind at 1; rewrite Hl.
  destruct (refused_fetch _ _ st H) as [(e & He) | (r & Hr & Hok)].
  - rewrite (bind_inl _ _ _ _ _ He); eauto.
  - rewrite (bind_inr _ _ _ _ _ Hr), Hok; cbn. eexists; reflexivity.
Qed.

Lemma establishSession_set r authData token st :
  payload r = Some authData ->
  JS.getProp authData "access_token" = inr token ->
  Callback.establishSession env request r st
  = (inr (cookies_set (Callback.authCookie env token)
            (NextResponse_redirect
               (new_URL Callback.success_target (nextUrl request)))), st).
Proof.
  intros Hp Hg; unfold Callback.establishSession, json; rewrite Hp.
  unfold bind, ret, lift; now rewrite Hg.
Qed.

Lemma establishSession_failed r st :
  payload r = None \/ payload r = Some JS.Null ->
  exists e, Callback.establishSession env request r st = (inl e, st).
Proof.
  unfold Callback.establishSession, json; intros [-> | ->]; eexists; reflexivity.
Qed.

(** A response of the [try] block is the success redirect with one cookie. *)
Lemma establishSession_shape r st resp st' :
  Callback.establishSession env request r st = (inr resp, st') ->
  exists token,
    resp = cookies_set (Callback.authCookie env token)
             (NextResponse_redirect
                (new_URL Callback.success_target (nextUrl request))).
Proof.
  unfold Callback.establishSession; intros H.
  apply bind_inr_inv in H as (authData & st1 & _ & H).
  apply bind_inr_inv in H as (token & st2 & _ & H).
  unfold ret in H; inversion H; eauto.
Qed.

Lemma flow_shape code st resp st' :
  flow code st = (inr resp, st') ->
  exists token,
    resp = cookies_set (Callback.authCookie env token)
             (NextResponse_redirect
                (new_URL Callback.success_target (nextUrl request))).
Proof.
  unfold flow, Callback.flow; intros H.
  apply bind_inr_inv in H as (tokenData & st1 & _ & H).
  apply bind_inr_inv in H as (userData & st2 & _ & H).
  apply bind_inr_inv in H as (email & st3 & _ & H).
  apply bind_inr_inv in H as (u & st4 & _ & H).
  apply bind_inr_inv in H as (authResponse & st5 & _ & H).
  now apply establishSession_shape in H.
Qed.

(** Once token, profile and email are there, what is left of the [try]
    block is the handoff and the session. *)
Lemma flow_identity code tok userData email st :
  Callback.identity_established env world request code tok userData email ->
  exists tokenData rqs,
    JS.getProp tokenData "access_token" = inr tok /\
    flow code st
    = bind (Callback.backendHandoff env world tokenData email userData)
           (Callback.establishSession env request)
           (sent (tokenRequest code :: Callback.userRequest tok :: rqs) st).
Proof.
  intros ((tokenData & Htok) & Hprof & Hmail & Ht).
  assert (Hg : JS.getProp tokenData "access_token" = inr tok)
    by (destruct Htok as (r & _ & _ & _ & Hg & _); exact Hg).
  destruct (resolveEmail_resolved tokenData tok userData email
              (sent [Callback.userRequest tok] (sent [tokenRequest code] st))
              Hg Hmail) as (rqs & Hres).
  exists tokenData, rqs; split; [exact Hg |].
  unfold flow, Callback.flow.
  rewrite (bind_inr _ _ _ _ _ (exchangeToken_granted _ _ _ st Htok)).
  rewrite (bind_inr _ _ _ _ _ (fetchProfile_fetched _ _ _ _ Hg Hprof)).
  rewrite (bind_inr _ _ _ _ _ Hres).
  rewrite (bind_inr _ _ _ _ _ (requireEmail_truthy _ _ Ht)).
  now rewrite !sent_sent.
Qed.

(** Every failure of steps 1-5 is an exception of the [try] block. *)
Lemma flow_failure_raises code st :
  Callback.flow_failure env world request code st ->
  exists e st', flow code st = (inl e, st').
Proof.
  unfold flow, Callback.flow.
  intros [H | r tokenData t Hw Hp Hg Ht | tokenData tok Htok H
          | tokenData tok userData email Htok Hprof Hmail Ht
          | tok userData email id login Hid Hi Hl H
          | tok userData email id login r Hid Hi Hl Hw Hok Hp
          | e st' H].
  - destruct (exchangeToken_refused code st H) as (e & st' & He).
    fold exchangeToken; rewrite (bind_inl _ _ _ _ _ He); eauto.
  - destruct (exchangeToken_without_token code st _ _ _ Hw Hp Hg Ht) as (e & st' & He).
    fold exchangeToken; rewrite (bind_inl _ _ _ _ _ He); eauto.
  - rewrite (bind_inr _ _ _ _ _ (exchangeToken_granted _ _ _ st Htok)).
    assert (Hg : JS.getProp tokenData "access_token" = inr tok)
      by (destruct Htok as (r & _ & _ & _ & Hg & _); exact Hg).
    destruct (fetchProfile_refused tokenData tok
                (sent [tokenRequest code] st) Hg H) as (e & st' & He).
    rewrite (bind_inl _ _ _ _ _ He); eauto.
  - rewrite (bind_inr _ _ _ _ _ (exchangeToken_granted _ _ _ st Htok)).
    assert (Hg : JS.getProp tokenData "access_token" = inr tok)
      by (destruct Htok as (r & _ & _ & _ & Hg & _); exact Hg).
    rewrite (bind_inr _ _ _ _ _ (fetchProfile_fetched _ _ _ _ Hg Hprof)).
    destruct (resolveEmail_resolved tokenData tok userData email
                (sent [Callback.userRequest tok] (sent [tokenRequest code] st))
                Hg Hmail) as (rqs & Hres).
    rewrite (bind_inr _ _ _ _ _ Hres).
    rewrite (bind_inl _ _ _ _ _ (requireEmail_falsy _ _ Ht)); eauto.
  - destruct (flow_identity code tok userData email st Hid)
      as (tokenData & rqs & Hg & Hflow).
    unfold flow, Callback.flow in Hflow; rewrite Hflow.
    destruct (backendHandoff_refused tokenData tok userData email id login
                (sent (tokenRequest code :: Callback.userRequest tok :: rqs) st)
                Hg Hi Hl H) as (e & He).
    rewrite (bind_inl _ _ _ _ _ He); eauto.
  - destruct (flow_identity code tok userData email st Hid)
      as (tokenData & rqs & Hg & Hflow).
    unfold flow, Callback.flow in Hflow; rewrite Hflow.
    rewrite (bind_inr _ _ _ _ _
               (backendHandoff_accepted _ _ _ _ _ _ _ _ Hg Hi Hl Hw Hok)).
    destruct (establishSession_failed r
                (sent [Callback.backendRequest env tok email id login]
                   (sent (tokenRequest code :: Callback.userRequest tok :: rqs) st))
                Hp) as (e & He).
    eauto.
  - eauto.
Qed.

(** The handoff sends its request whatever the answer, and the session
    step sends nothing. *)
Lemma handoff_then_session tokenData tok userData email id login st :
  JS.getProp tokenData "access_token" = inr tok ->
  JS.getProp userData "id" = inr id ->
  JS.getProp userData "login" = inr login ->
  exists out,
    bind (Callback.backendHandoff env world tokenData email userData)
         (Callback.establishSession env request) st
    = (out, sent [Callback.backendRequest env tok email id login] st).
Proof.
  intros Hg Hi Hl.
  unfold Callback.backendHandoff, lift, bind at 2; rewrite Hg.
  unfold bind at 2; rewrite Hi. unfold bind at 2; rewrite Hl.
  unfold bind, fetch.
  destruct (world (Callback.backendRequest env tok email id login)) as [| r];
    [eexists; reflexivity |].
  destruct (ok r); cbn; [| eexists; reflexivity].
  unfold Callback.establishSession, json, bind, throw, ret, lift.
  destruct (payload r) as [authData |]; [| eexists; reflexivity].
  destruct (JS.getProp authData "access_token"); eexists; reflexivity.
Qed.

(** The email lookup sends its request whatever the answer. *)
Lemma lookupPrimaryEmail_sends tokenData tok email0 st :
  JS.getProp tokenData "access_token" = inr tok ->
  exists out,
    Callback.lookupPrimaryEmail world tokenData email0 st
    = (out, sent [Callback.emailsRequest tok] st).
Proof.
  intros Hg.
  unfold Callback.lookupPrimaryEmail, lift, bind at 1; rewrite Hg.
  unfold bind, fetch.
  destruct (world (Callback.emailsRequest tok)) as [| r]; [eexists; reflexivity |].
  destruct (ok r); [| eexists; reflexivity].
  unfold json, throw, ret.
  destruct (payload r) as [emails |]; [| eexists; reflexivity].
  destruct (JS.Array_find emails Callback.is_primary) as [e | entry];
    [eexists; reflexivity |].
  destruct (JS.getPropOpt entry "email"); eexists; reflexivity.
Qed.

End Steps.

(* ================================================================== *)
(** ** The callback handler as a whole *)

Section WholeHandler.

Variable env : ProcessEnv.
Variable world : World.
Variable request : NextRequest.

Let code_param := searchParams_get (searchParams (nextUrl request)) "code".

Lemma GET_without_code st :
  falsy_string code_param = true ->
  Callback.GET env world request st = (inr (Callback.error_redirect request), st).
Proof.
  unfold Callback.GET, code_param, falsy_string.
  destruct (searchParams_get _ "code") as [c |]; [intros -> |]; reflexivity.
Qed.

Lemma GET_with_code code st :
  code_param = Some code -> code <> "" ->
  Callback.GET env world request st
  = try_catch (Callback.flow env world request code) (Callback.on_error request) st.
Proof.
  unfold Callback.GET, code_param; intros -> Hc.
  apply String.eqb_neq in Hc; now rewrite Hc.
Qed.

Lemma GET_caught code st e st' :
  code_param = Some code -> code <> "" ->
  Callback.flow env world request code st = (inl e, st') ->
  Callback.GET env world request st
  = (inr (Callback.error_redirect request), logged "GitHub OAuth error:" e st').
Proof.
  intros Hc Hne H; rewrite (GET_with_code _ _ Hc Hne).
  unfold try_catch; now rewrite H.
Qed.

Lemma GET_passed code st resp st' :
  code_param = Some code -> code <> "" ->
  Callback.flow env world request code st = (inr resp, st') ->
  Callback.GET env world request st = (inr resp, st').
Proof.
  intros Hc Hne H; rewrite (GET_with_code _ _ Hc Hne).
  unfold try_catch; now rewrite H.
Qed.

End WholeHandler.

Lemma get_code_without_state params :
  searchParams_get (Callback.without_state params) "code"
  = searchParams_get params "code".
Proof.
  unfold searchParams_get, Callback.without_state.
  induction params as [| [k v] ps IH]; [reflexivity |]; cbn.
  destruct (k =? "state")%string eqn:Hs; cbn.
  - apply String.eqb_eq in Hs; subst k; cbn. exact IH.
  - destruct (k =? "code")%string; [reflexivity | exact IH].
Qed.

(** The handler looks at its request through the origin and the [code]
    parameter only. *)
Lemma GET_ext env world r1 r2 st :
  origin (nextUrl r1) = origin (nextUrl r2) ->
  searchParams_get (searchParams (nextUrl r1)) "code"
  = searchParams_get (searchParams (nextUrl r2)) "code" ->
  Callback.GET env world r1 st = Callback.GET env world r2 st.
Proof.
  intros Ho Hc.
  unfold Callback.GET, Callback.flow, Callback.exchangeToken, Callback.tokenRequest,
    Callback.establishSession, Callback.on_error, new_URL.
  now rewrite Ho, Hc.
Qed.

Lemma append_inv_head (p s t : string) : p ++ s = p ++ t -> s = t.
Proof.
  induction p as [| c p IH]; cbn; intros H; [exact H |].
  inversion H; auto.
Qed.

(* ================================================================== *)
(** ** The claims about the callback handler *)

(** C3. A callback request without a [code] parameter is answered with a
    redirect to /login?error=github_oauth_failed that carries no cookie, and
    the run leaves the effects as they were: no outbound call is made (and
    nothing is logged). *)
Theorem callback_missing_code env world request st :
  searchParams_get (searchParams (nextUrl request)) "code" = None ->
  Callback.GET env world request st
  = (inr {| res_status := 307;
            res_location :=
              Some (origin (nextUrl request) ++ "/login?error=github_oauth_failed");
            res_json := None;
            res_cookies := [] |},
     st).
Proof.
  intros H. apply GET_without_code. now rewrite H.
Qed.

Lemma callback_missing_code_witness :
  Callback.GET Sample.env (fun _ => Rejected) (Sample.request [("state", "k3x9")])
    no_effects
  = (inr {| res_status := 307;
            res_location := Some "https://b2b.example/login?error=github_oauth_failed";
            res_json := None;
            res_cookies := [] |},
     no_effects).
Proof.
  apply (callback_missing_code Sample.env (fun _ => Rejected)
           (Sample.request [("state", "k3x9")]) no_effects).
  reflexivity.
Defined.

(** C5. Whatever the request and whatever the provider and the backend
    answer, the callback handler returns a response, and that response is a
    3xx redirect (a 307) to one of two targets, which differ:
    /login?error=github_oauth_failed or /moderator, on the request's origin. *)
Theorem callback_two_targets env world request st :
  exists resp st',
    Callback.GET env world request st = (inr resp, st') /\
    res_status resp = 307 /\ 300 <= res_status resp < 400 /\
    res_json resp = None /\
    (res_location resp
     = Some (origin (nextUrl request) ++ "/login?error=github_oauth_failed")
     \/ res_location resp = Some (origin (nextUrl request) ++ "/moderator")) /\
    origin (nextUrl request) ++ "/login?error=github_oauth_failed"
    <> origin (nextUrl request) ++ "/moderator".
Proof.
  assert (Hd : origin (nextUrl request) ++ "/login?error=github_oauth_failed"
               <> origin (nextUrl request) ++ "/moderator")
    by (intros H; apply append_inv_head in H; discriminate).
  destruct (searchParams_get (searchParams (nextUrl request)) "code")
    as [code |] eqn:Hc.
  - destruct (String.eqb_spec code "") as [-> | Hne].
    + exists (Callback.error_redirect request), st; split.
      * apply GET_without_code; now rewrite Hc.
      * cbn; repeat split; auto; lia.
    + destruct (Callback.flow env world request code st) as [[e | resp] st'] eqn:Hf.
      * exists (Callback.error_redirect request), (logged "GitHub OAuth error:" e st').
        split; [now apply GET_caught with (code := code) |].
        cbn; repeat split; auto; lia.
      * exists resp, st'; split; [now apply GET_passed with (code := code) |].
        apply flow_shape in Hf as (token & ->).
        cbn; repeat split; auto; lia.
  - exists (Callback.error_redirect request), st; split.
    + apply GET_without_code; now rewrite Hc.
    + cbn; repeat split; auto; lia.
Qed.

(** C6. The [state] parameter has no influence on the callback handler:
    two requests that agree except in the presence or the values of their
    [state] parameters get, from the same provider and backend, the same
    response, with the same outbound calls and the same log. *)
Theorem callback_ignores_state env world r1 r2 st :
  Callback.same_up_to_state r1 r2 ->
  Callback.GET env world r1 st = Callback.GET env world r2 st.
Proof.
  intros (Ho & _ & Hp & _).
  apply GET_ext; [exact Ho |].
  rewrite <- (get_code_without_state (searchParams (nextUrl r1))).
  rewrite <- (get_code_without_state (searchParams (nextUrl r2))).
  now rewrite Hp.
Qed.

Lemma callback_ignores_state_witness :
  let world := Sample.world (Sample.answer 200 Sample.token_doc)
                 (Sample.answer 200 (Sample.profile_doc (JS.Str "octocat@b2b.example")))
                 Rejected
                 (Sample.answer 200 Sample.session_doc) in
  Callback.GET Sample.env world
    (Sample.request [("state", "k3x9"); ("code", "4b1d")]) no_effects
  = Callback.GET Sample.env world
      (Sample.request [("code", "4b1d"); ("state", "forged"); ("state", "")]) no_effects.
Proof.
  apply (callback_ignores_state Sample.env _
           (Sample.request [("state", "k3x9"); ("code", "4b1d")])
           (Sample.request [("code", "4b1d"); ("state", "forged"); ("state", "")])
           no_effects).
  repeat split; reflexivity.
Defined.

(** C1. When the request carries a code and any of steps 1-5 fails (the
    token exchange is refused or its answer has no usable [access_token],
    the profile fetch is refused, no email is found, the backend refuses the
    handoff, the session cannot be read from the backend's answer, or
    anything else is thrown in the [try] block), the handler answers with
    the redirect to /login?error=github_oauth_failed, which carries no
    cookie and no body; the cause goes to the console only. *)
Theorem callback_failure_redirects env world request code st :
  searchParams_get (searchParams (nextUrl request)) "code" = Some code ->
  code <> "" ->
  Callback.flow_failure env world request code st ->
  exists e st',
    Callback.flow env world request code st = (inl e, st') /\
    Callback.GET env world request st
    = (inr {| res_status := 307;
              res_location :=
                Some (origin (nextUrl request) ++ "/login?error=github_oauth_failed");
              res_json := None;
              res_cookies := [] |},
       logged "GitHub OAuth error:" e st').
Proof.
  intros Hc Hne Hfail.
  destruct (flow_failure_raises env world request code st Hfail) as (e & st' & Hf).
  exists e, st'; split; [exact Hf |].
  now apply GET_caught with (code := code).
Qed.

Lemma callback_failure_redirects_witness :
  exists e st',
    Callback.GET Sample.env
      (Sample.world
         (Sample.answer 200 (JS.Obj [("error", JS.Str "bad_verification_code")]))
         Rejected Rejected Rejected)
      (Sample.request [("code", "4b1d"); ("state", "k3x9")]) no_effects
    = (inr {| res_status := 307;
              res_location := Some "https://b2b.example/login?error=github_oauth_failed";
              res_json := None;
              res_cookies := [] |},
       logged "GitHub OAuth error:" e st').
Proof.
  destruct (callback_failure_redirects Sample.env
              (Sample.world
                 (Sample.answer 200 (JS.Obj [("error", JS.Str "bad_verification_code")]))
                 Rejected Rejected Rejected)
              (Sample.request [("code", "4b1d"); ("state", "k3x9")]) "4b1d" no_effects)
    as (e & st' & _ & H).
  - reflexivity.
  - discriminate.
  - eapply Callback.exchange_without_token; reflexivity.
  - exists e, st'; exact H.
Defined.

(** C2. On full success (the token is granted, the profile is fetched, an
    email is resolved and the backend answers the handoff with success and a
    document whose [access_token] is the string T), the handler answers with
    a redirect to /moderator that sets exactly one cookie: auth_token=T,
    HttpOnly, SameSite=Lax, Path=/, Max-Age=604800, and Secure exactly when
    NODE_ENV is "production". *)
Theorem callback_success env world request code st tok userData email id login r authData T :
  searchParams_get (searchParams (nextUrl request)) "code" = Some code ->
  code <> "" ->
  Callback.identity_established env world request code tok userData email ->
  JS.getProp userData "id" = inr id ->
  JS.getProp userData "login" = inr login ->
  world (Callback.backendRequest env tok email id login) = Resolved r ->
  ok r = true ->
  payload r = Some authData ->
  JS.getProp authData "access_token" = inr (JS.Str T) ->
  exists production st',
    Callback.GET env world request st
    = (inr {| res_status := 307;
              res_location := Some (origin (nextUrl request) ++ "/moderator");
              res_json := None;
              res_cookies :=
                [{| name := "auth_token";
                    value := JS.Str T;
                    httpOnly := true;
                    secure := production;
                    sameSite := "lax";
                    path := "/";
                    maxAge := 604800 |}] |},
       st') /\
    (production = true <-> NODE_ENV env = Some "production").
Proof.
  intros Hc Hne Hid Hi Hl Hw Hok Hp Ht.
  destruct (flow_identity env world request code tok userData email st Hid)
    as (tokenData & rqs & Hg & Hflow).
  rewrite (bind_inr _ _ _ _ _
             (backendHandoff_accepted env world _ _ _ _ _ _ _ _ Hg Hi Hl Hw Hok))
    in Hflow.
  rewrite (establishSession_set env request _ _ _ _ Hp Ht) in Hflow.
  exists (secure (Callback.authCookie env (JS.Str T))).
  eexists; split.
  - apply GET_passed with (code := code); [exact Hc | exact Hne |].
    rewrite Hflow; reflexivity.
  - cbn. destruct (NODE_ENV env) as [mode |].
    + rewrite String.eqb_eq. split; [now intros -> | now intros [= ->]].
    + split; discriminate.
Qed.

Lemma callback_success_witness :
  exists st',
    Callback.GET Sample.env
      (Sample.world (Sample.answer 200 Sample.token_doc)
         (Sample.answer 200 (Sample.profile_doc JS.Null))
         (Sample.answer 200 Sample.emails_doc)
         (Sample.answer 200 Sample.session_doc))
      (Sample.request [("code", "4b1d"); ("state", "k3x9")]) no_effects
    = (inr {| res_status := 307;
              res_location := Some "https://b2b.example/moderator";
              res_json := None;
              res_cookies :=
                [{| name := "auth_token";
                    value := JS.Str "T";
                    httpOnly := true;
                    secure := true;
                    sameSite := "lax";
                    path := "/";
                    maxAge := 604800 |}] |},
       st').
Proof.
  destruct (callback_success Sample.env
              (Sample.world (Sample.answer 200 Sample.token_doc)
                 (Sample.answer 200 (Sample.profile_doc JS.Null))
                 (Sample.answer 200 Sample.emails_doc)
                 (Sample.answer 200 Sample.session_doc))
              (Sample.request [("code", "4b1d"); ("state", "k3x9")]) "4b1d" no_effects
              (JS.Str "gho_16C7e42F") (Sample.profile_doc JS.Null)
              (JS.Str "octocat@b2b.example") (JS.Num 583231) (JS.Str "octocat")
              {| status := 200; payload := Some Sample.session_doc |}
              Sample.session_doc "T")
    as (production & st' & H & Hprod); try reflexivity.
  - discriminate.
  - split; [| split; [| split]].
    + exists Sample.token_doc.
      exists {| status := 200; payload := Some Sample.token_doc |}.
      repeat split; reflexivity.
    + exists {| status := 200; payload := Some (Sample.profile_doc JS.Null) |}.
      repeat split; reflexivity.
    + eapply Callback.listed_email with (emails := Sample.emails_doc);
        try reflexivity.
      exists {| status := 200; payload := Some Sample.emails_doc |}.
      repeat split; reflexivity.
    + reflexivity.
  - exists st'. rewrite H.
    assert (Hp : production = true) by (apply Hprod; reflexivity).
    now rewrite Hp.
Defined.

(** The [try] block when the email check of lines 65-67 fails. *)
Lemma flow_email_missing env world request code tokenData tok userData email st st3 :
  Callback.token_granted env world request code tokenData tok ->
  Callback.profile_fetched world tok userData ->
  Callback.resolveEmail world tokenData userData
    (sent [Callback.tokenRequest env request code; Callback.userRequest tok] st)
  = (inr email, st3) ->
  JS.truthy email = false ->
  Callback.flow env world request code st
  = (inl (JS.Error "Email is required"), st3).
Proof.
  intros Htok Hprof Hres Ht.
  assert (Hg : JS.getProp tokenData "access_token" = inr tok)
    by (destruct Htok as (r & _ & _ & _ & Hg & _); exact Hg).
  unfold Callback.flow.
  rewrite (bind_inr _ _ _ _ _ (exchangeToken_granted _ _ _ _ _ _ st Htok)).
  rewrite (bind_inr _ _ _ _ _ (fetchProfile_fetched _ _ _ _ _ Hg Hprof)).
  rewrite sent_sent; cbn [app].
  rewrite (bind_inr _ _ _ _ _ Hres).
  now rewrite (bind_inl _ _ _ _ _ (requireEmail_falsy _ _ Ht)).
Qed.

(** C4. With a profile whose [email] is [null], the email resolution asks
    the provider for the account's email list.  When the list comes back
    and has an entry flagged primary (no entry before it is flagged; in
    particular when it is the only flagged entry), the resolved email is
    that entry's address.  When the list comes back and no entry is flagged
    primary, the run ends in the error redirect, on the missing-email check,
    before any call to the backend. *)
Theorem callback_primary_email env world request code st tokenData tok userData :
  searchParams_get (searchParams (nextUrl request)) "code" = Some code ->
  code <> "" ->
  Callback.token_granted env world request code tokenData tok ->
  Callback.profile_fetched world tok userData ->
  JS.getProp userData "email" = inr JS.Null ->
  (forall st1, exists out,
      Callback.resolveEmail world tokenData userData st1
      = (out, sent [Callback.emailsRequest tok] st1)) /\
  (forall pre entry post st1,
      Callback.emails_listed world tok (JS.Arr (pre ++ entry :: post)) ->
      Forall (fun e => Callback.is_primary e = inr false) pre ->
      Callback.is_primary entry = inr true ->
      exists address,
        JS.getProp entry "email" = inr address /\
        Callback.resolveEmail world tokenData userData st1
        = (inr address, sent [Callback.emailsRequest tok] st1)) /\
  (forall l,
      Callback.emails_listed world tok (JS.Arr l) ->
      Forall (fun e => Callback.is_primary e = inr false) l ->
      Callback.GET env world request st
      = (inr {| res_status := 307;
                res_location :=
                  Some (origin (nextUrl request) ++ "/login?error=github_oauth_failed");
                res_json := None;
                res_cookies := [] |},
         logged "GitHub OAuth error:" (JS.Error "Email is required")
           (sent [Callback.tokenRequest env request code;
                  Callback.userRequest tok;
                  Callback.emailsRequest tok] st))).
Proof.
  intros Hc Hne Htok Hprof Hnull.
  assert (Hg : JS.getProp tokenData "access_token" = inr tok)
    by (destruct Htok as (r & _ & _ & _ & Hg & _); exact Hg).
  split; [| split].
  - intros st1.
    rewrite (resolveEmail_falsy world tokenData userData JS.Null st1 Hnull eq_refl).
    now apply lookupPrimaryEmail_sends.
  - intros pre entry post st1 Hl Hpre He.
    destruct (is_primary_entry entry He) as (address & Ha & Hao).
    exists address; split; [exact Ha |].
    rewrite (resolveEmail_falsy world tokenData userData JS.Null st1 Hnull eq_refl).
    apply lookupPrimaryEmail_listed
      with (emails := JS.Arr (pre ++ entry :: post)) (entry := entry); auto.
    now apply find_elem_first.
  - intros l Hl Hnone.
    apply GET_caught with (code := code); [exact Hc | exact Hne |].
    apply flow_email_missing
      with (tokenData := tokenData) (tok := tok) (userData := userData)
           (email := JS.Undefined); auto.
    rewrite (resolveEmail_falsy world tokenData userData JS.Null _ Hnull eq_refl).
    rewrite (lookupPrimaryEmail_listed world tokenData tok JS.Null (JS.Arr l)
               JS.Undefined JS.Undefined _ Hg Hl (find_elem_none _ _ Hnone) eq_refl).
    now rewrite sent_sent.
Qed.

Lemma callback_primary_email_witness :
  Callback.resolveEmail
    (Sample.world (Sample.answer 200 Sample.token_doc)
       (Sample.answer 200 (Sample.profile_doc JS.Null))
       (Sample.answer 200 Sample.emails_doc)
       (Sample.answer 200 Sample.session_doc))
    Sample.token_doc (Sample.profile_doc JS.Null) no_effects
  = (inr (JS.Str "octocat@b2b.example"),
     sent [Callback.emailsRequest (JS.Str "gho_16C7e42F")] no_effects).
Proof.
  destruct (callback_primary_email Sample.env
              (Sample.world (Sample.answer 200 Sample.token_doc)
                 (Sample.answer 200 (Sample.profile_doc JS.Null))
                 (Sample.answer 200 Sample.emails_doc)
                 (Sample.answer 200 Sample.session_doc))
              (Sample.request [("code", "4b1d"); ("state", "k3x9")]) "4b1d" no_effects
              Sample.token_doc (JS.Str "gho_16C7e42F") (Sample.profile_doc JS.Null))
    as (_ & Hprimary & _).
  - reflexivity.
  - discriminate.
  - exists {| status := 200; payload := Some Sample.token_doc |}.
    repeat split; reflexivity.
  - exists {| status := 200; payload := Some (Sample.profile_doc JS.Null) |}.
    repeat split; reflexivity.
  - reflexivity.
  - destruct (Hprimary [Sample.email_entry "octocat@users.noreply.example" false]
                (Sample.email_entry "octocat@b2b.example" true) [] no_effects)
      as (address & Ha & Hres).
    + exists {| status := 200; payload := Some Sample.emails_doc |}.
      repeat split; reflexivity.
    + repeat constructor.
    + reflexivity.
    + injection Ha as <-. exact Hres.
Defined.

(** C10. A non-success status of the email-list request throws nothing:
    the list is not parsed and [email] keeps the falsy value read from the
    profile.  The run fails afterwards, on the missing-email check, with the
    same error redirect as every other failure, after three outbound calls
    and none to the backend. *)
Theorem callback_email_list_refused env world request code st tokenData tok userData email0 r :
  searchParams_get (searchParams (nextUrl request)) "code" = Some code ->
  code <> "" ->
  Callback.token_granted env world request code tokenData tok ->
  Callback.profile_fetched world tok userData ->
  JS.getProp userData "email" = inr email0 ->
  JS.truthy email0 = false ->
  world (Callback.emailsRequest tok) = Resolved r ->
  ok r = false ->
  (forall st1,
      Callback.resolveEmail world tokenData userData st1
      = (inr email0, sent [Callback.emailsRequest tok] st1)) /\
  Callback.GET env world request st
  = (inr {| res_status := 307;
            res_location :=
              Some (origin (nextUrl request) ++ "/login?error=github_oauth_failed");
            res_json := None;
            res_cookies := [] |},
     logged "GitHub OAuth error:" (JS.Error "Email is required")
       (sent [Callback.tokenRequest env request code;
              Callback.userRequest tok;
              Callback.emailsRequest tok] st)).
Proof.
  intros Hc Hne Htok Hprof He Ht Hw Hok.
  assert (Hg : JS.getProp tokenData "access_token" = inr tok)
    by (destruct Htok as (r0 & _ & _ & _ & Hg & _); exact Hg).
  assert (Hres : forall st1,
             Callback.resolveEmail world tokenData userData st1
             = (inr email0, sent [Callback.emailsRequest tok] st1)).
  { intros st1.
    rewrite (resolveEmail_falsy world tokenData userData email0 st1 He Ht).
    now apply lookupPrimaryEmail_skipped with (r := r). }
  split; [exact Hres |].
  apply GET_caught with (code := code); [exact Hc | exact Hne |].
  apply flow_email_missing
    with (tokenData := tokenData) (tok := tok) (userData := userData)
         (email := email0); auto.
  now rewrite Hres, sent_sent.
Qed.

Lemma callback_email_list_refused_witness :
  Callback.GET Sample.env
    (Sample.world (Sample.answer 200 Sample.token_doc)
       (Sample.answer 200 (Sample.profile_doc JS.Null))
       (Sample.answer 403 (JS.Obj [("message", JS.Str "Resource not accessible")]))
       (Sample.answer 200 Sample.session_doc))
    (Sample.request [("code", "4b1d"); ("state", "k3x9")]) no_effects
  = (inr {| res_status := 307;
            res_location := Some "https://b2b.example/login?error=github_oauth_failed";
            res_json := None;
            res_cookies := [] |},
     logged "GitHub OAuth error:" (JS.Error "Email is required")
       (sent [Callback.tokenRequest Sample.env
                (Sample.request [("code", "4b1d"); ("state", "k3x9")]) "4b1d";
              Callback.userRequest (JS.Str "gho_16C7e42F");
              Callback.emailsRequest (JS.Str "gho_16C7e42F")] no_effects)).
Proof.
  apply (callback_email_list_refused Sample.env
           (Sample.world (Sample.answer 200 Sample.token_doc)
              (Sample.answer 200 (Sample.profile_doc JS.Null))
              (Sample.answer 403 (JS.Obj [("message", JS.Str "Resource not accessible")]))
              (Sample.answer 200 Sample.session_doc))
           (Sample.request [("code", "4b1d"); ("state", "k3x9")]) "4b1d" no_effects
           Sample.token_doc (JS.Str "gho_16C7e42F") (Sample.profile_doc JS.Null) JS.Null
           {| status := 403;
              payload := Some (JS.Obj [("message", JS.Str "Resource not accessible")]) |}).
  - reflexivity.
  - discriminate.
  - exists {| status := 200; payload := Some Sample.token_doc |}.
    repeat split; reflexivity.
  - exists {| status := 200; payload := Some (Sample.profile_doc JS.Null) |}.
    repeat split; reflexivity.
  - reflexivity.
  - reflexivity.
  - reflexivity.
  - reflexivity.
Defined.

(** Up to the email check, the lookup does not depend on the falsy value
    it was entered with. *)
Lemma lookup_then_require world tokenData email0 email1 st :
  JS.truthy email0 = false ->
  JS.truthy email1 = false ->
  (let (out, st') := Callback.lookupPrimaryEmail world tokenData email0 st in
   match out with
   | inl e => (inl e, st')
   | inr email => (Callback.requireEmail email ;;; ret email) st'
   end)
  = (let (out, st') := Callback.lookupPrimaryEmail world tokenData email1 st in
     match out with
     | inl e => (inl e, st')
     | inr email => (Callback.requireEmail email ;;; ret email) st'
     end).
Proof.
  intros H0 H1.
  unfold Callback.lookupPrimaryEmail, lift, bind, fetch.
  destruct (JS.getProp tokenData "access_token") as [e | tok]; [reflexivity |].
  destruct (world (Callback.emailsRequest tok)) as [| r]; [reflexivity |].
  destruct (ok r); [reflexivity |].
  unfold ret, Callback.requireEmail; now rewrite H0, H1.
Qed.

(** What is left of the [try] block after the email resolution sends
    requests only. *)
Lemma after_email_sends env world request tokenData userData email st :
  exists out rest,
    (Callback.requireEmail email ;;;
     authResponse <- Callback.backendHandoff env world tokenData email userData ;;
     Callback.establishSession env request authResponse) st
    = (out, sent rest st).
Proof.
  unfold Callback.requireEmail, Callback.backendHandoff, Callback.establishSession,
    bind, fetch, json, lift, ret, throw.
  split_run.
  all: first [ do 2 eexists; reflexivity
             | exists (inl (JS.Error "Email is required")), []; now rewrite sent_nil
             | eexists; exists []; rewrite sent_nil; reflexivity ].
Qed.

(** C9. The test for a missing public email is falsiness.  With a profile
    whose [email] is falsy (the empty string, [false], 0, [null], a missing
    property) the handler asks the provider for the account's email list,
    as it does for [email: null]: the email resolution sends that request,
    it is the third call of the run, and up to the missing-email check the
    resolution gives what it gives for a profile with [email: null] (same
    call, same exception or same email).  And an email that resolves to the
    empty string fails that check: the run ends in the error redirect after
    the token, profile and email-list calls. *)
Theorem callback_falsy_email env world request code st tokenData tok userData email0 nullProfile :
  searchParams_get (searchParams (nextUrl request)) "code" = Some code ->
  code <> "" ->
  Callback.token_granted env world request code tokenData tok ->
  Callback.profile_fetched world tok userData ->
  JS.getProp userData "email" = inr email0 ->
  JS.truthy email0 = false ->
  JS.getProp nullProfile "email" = inr JS.Null ->
  (forall st1, exists out,
      Callback.resolveEmail world tokenData userData st1
      = (out, sent [{| url := "https://api.github.com/user/emails";
                       method := "GET";
                       req_headers := [("Authorization", "token " ++ JS.toString tok)];
                       body := NoBody |}] st1)) /\
  (exists resp st' rest,
      Callback.GET env world request st = (inr resp, st') /\
      fetches st'
      = (fetches st ++ [Callback.tokenRequest env request code;
                        Callback.userRequest tok;
                        Callback.emailsRequest tok] ++ rest)%list) /\
  (forall st1,
      (email <- Callback.resolveEmail world tokenData userData ;;
       Callback.requireEmail email ;;; ret email) st1
      = (email <- Callback.resolveEmail world tokenData nullProfile ;;
         Callback.requireEmail email ;;; ret email) st1) /\
  (Callback.email_resolved world tok userData (JS.Str "") ->
   Callback.GET env world request st
   = (inr {| res_status := 307;
             res_location :=
               Some (origin (nextUrl request) ++ "/login?error=github_oauth_failed");
             res_json := None;
             res_cookies := [] |},
      logged "GitHub OAuth error:" (JS.Error "Email is required")
        (sent [Callback.tokenRequest env request code;
               Callback.userRequest tok;
               Callback.emailsRequest tok] st))).
Proof.
  intros Hc Hne Htok Hprof He Ht Hnull.
  assert (Hg : JS.getProp tokenData "access_token" = inr tok)
    by (destruct Htok as (r0 & _ & _ & _ & Hg & _); exact Hg).
  assert (Hsends : forall st1, exists out,
             Callback.resolveEmail world tokenData userData st1
             = (out, sent [Callback.emailsRequest tok] st1)).
  { intros st1.
    rewrite (resolveEmail_falsy world tokenData userData email0 st1 He Ht).
    now apply lookupPrimaryEmail_sends. }
  split; [exact Hsends | split; [| split]].
  - destruct (Hsends (sent [Callback.tokenRequest env request code;
                            Callback.userRequest tok] st)) as (out & Hres).
    assert (Hflow : exists out' rest,
               Callback.flow env world request code st
               = (out', sent ([Callback.tokenRequest env request code;
                               Callback.userRequest tok;
                               Callback.emailsRequest tok] ++ rest) st)).
    { unfold Callback.flow.
      rewrite (bind_inr _ _ _ _ _ (exchangeToken_granted _ _ _ _ _ _ st Htok)).
      rewrite (bind_inr _ _ _ _ _ (fetchProfile_fetched _ _ _ _ _ Hg Hprof)).
      rewrite sent_sent; cbn [app].
      destruct out as [e | email].
      - exists (inl e), []. rewrite (bind_inl _ _ _ _ _ Hres).
        now rewrite sent_sent.
      - rewrite (bind_inr _ _ _ _ _ Hres).
        destruct (after_email_sends env world request tokenData userData email
                    (sent [Callback.emailsRequest tok]
                       (sent [Callback.tokenRequest env request code;
                              Callback.userRequest tok] st)))
          as (out' & rest & Hrest).
        exists out', rest. etransitivity; [exact Hrest |].
        now rewrite !sent_sent. }
    destruct Hflow as ([e | resp] & rest & Hflow).
    + exists (Callback.error_redirect request). eexists. exists rest; split.
      * apply GET_caught with (code := code); eauto.
      * reflexivity.
    + exists resp. eexists. exists rest; split.
      * apply GET_passed with (code := code); eauto.
      * reflexivity.
  - intros st1. unfold bind at 1 3.
    rewrite (resolveEmail_falsy world tokenData userData email0 st1 He Ht).
    rewrite (resolveEmail_falsy world tokenData nullProfile JS.Null st1 Hnull eq_refl).
    now apply lookup_then_require.
  - intros Hres.
    destruct (resolveEmail_resolved world tokenData tok userData (JS.Str "")
                (sent [Callback.tokenRequest env request code; Callback.userRequest tok] st)
                Hg Hres) as (rqs & Hrun).
    destruct (Hsends (sent [Callback.tokenRequest env request code;
                            Callback.userRequest tok] st)) as (out & Hout).
    rewrite Hout in Hrun.
    apply GET_caught with (code := code); [exact Hc | exact Hne |].
    apply flow_email_missing
      with (tokenData := tokenData) (tok := tok) (userData := userData)
           (email := JS.Str ""); auto.
    injection Hrun as -> _. rewrite Hout. now rewrite sent_sent.
Qed.

Lemma callback_falsy_email_witness :
  Callback.GET Sample.env
    (Sample.world (Sample.answer 200 Sample.token_doc)
       (Sample.answer 200 (Sample.profile_doc (JS.Str "")))
       (Sample.answer 200 (JS.Arr [Sample.email_entry "" true]))
       (Sample.answer 200 Sample.session_doc))
    (Sample.request [("code", "4b1d"); ("state", "k3x9")]) no_effects
  = (inr {| res_status := 307;
            res_location := Some "https://b2b.example/login?error=github_oauth_failed";
            res_json := None;
            res_cookies := [] |},
     logged "GitHub OAuth error:" (JS.Error "Email is required")
       (sent [Callback.tokenRequest Sample.env
                (Sample.request [("code", "4b1d"); ("state", "k3x9")]) "4b1d";
              {| url := "https://api.github.com/user";
                 method := "GET";
                 req_headers := [("Authorization", "token gho_16C7e42F")];
                 body := NoBody |};
              {| url := "https://api.github.com/user/emails";
                 method := "GET";
                 req_headers := [("Authorization", "token gho_16C7e42F")];
                 body := NoBody |}] no_effects)).
Proof.
  destruct (callback_falsy_email Sample.env
              (Sample.world (Sample.answer 200 Sample.token_doc)
                 (Sample.answer 200 (Sample.profile_doc (JS.Str "")))
                 (Sample.answer 200 (JS.Arr [Sample.email_entry "" true]))
                 (Sample.answer 200 Sample.session_doc))
              (Sample.request [("code", "4b1d"); ("state", "k3x9")]) "4b1d" no_effects
              Sample.token_doc (JS.Str "gho_16C7e42F") (Sample.profile_doc (JS.Str ""))
              (JS.Str "") (Sample.profile_doc JS.Null))
    as (_ & _ & _ & Hempty).
  - reflexivity.
  - discriminate.
  - exists {| status := 200; payload := Some Sample.token_doc |}.
    repeat split; reflexivity.
  - exists {| status := 200; payload := Some (Sample.profile_doc (JS.Str "")) |}.
    repeat split; reflexivity.
  - reflexivity.
  - reflexivity.
  - reflexivity.
  - apply Hempty.
    eapply Callback.listed_email
      with (emails := JS.Arr [Sample.email_entry "" true]); try reflexivity.
    exists {| status := 200; payload := Some (JS.Arr [Sample.email_entry "" true]) |}.
    repeat split; reflexivity.
Defined.

(** C7. Once token, profile and a truthy email are there, the last
    outbound call of the run is the handoff: a POST to
    {backend}/api/auth/github-oauth whose body is the JSON text of the
    object with the four properties access_token (the provider's token),
    email (the resolved email), github_id (the profile's [id]) and username
    (the profile's [login]); with a profile that has an [id] and a [login]
    the text has exactly these four fields.  When the backend refuses the
    handoff, the run ends in the error redirect. *)
Theorem callback_backend_handoff env world request code st tok userData email id login :
  searchParams_get (searchParams (nextUrl request)) "code" = Some code ->
  code <> "" ->
  Callback.identity_established env world request code tok userData email ->
  JS.getProp userData "id" = inr id ->
  JS.getProp userData "login" = inr login ->
  let handoff :=
    {| url := or_else (NEXT_PUBLIC_API_URL env) "http://localhost:8000"
              ++ "/api/auth/github-oauth";
       method := "POST";
       req_headers := [("Content-Type", "application/json")];
       body := JsonBody
                 (JS.JSON_stringify
                    (JS.Obj [("access_token", tok); ("email", email);
                             ("github_id", id); ("username", login)])) |} in
  (exists resp st' rqs,
      Callback.GET env world request st = (inr resp, st') /\
      fetches st' = (fetches st ++ rqs ++ [handoff])%list) /\
  (id <> JS.Undefined -> login <> JS.Undefined ->
   body handoff
   = JsonBody (JS.Obj [("access_token", JS.JSON_stringify tok);
                       ("email", JS.JSON_stringify email);
                       ("github_id", JS.JSON_stringify id);
                       ("username", JS.JSON_stringify login)])) /\
  (refused (world handoff) ->
   exists e st',
     Callback.GET env world request st
     = (inr {| res_status := 307;
               res_location :=
                 Some (origin (nextUrl request) ++ "/login?error=github_oauth_failed");
               res_json := None;
               res_cookies := [] |},
        logged "GitHub OAuth error:" e st')).
Proof.
  intros Hc Hne Hid Hi Hl handoff.
  assert (Hh : handoff = Callback.backendRequest env tok email id login) by reflexivity.
  split; [| split].
  - destruct (flow_identity env world request code tok userData email st Hid)
      as (tokenData & rqs & Hg & Hflow).
    destruct (handoff_then_session env world request tokenData tok userData email
                id login
                (sent (Callback.tokenRequest env request code
                         :: Callback.userRequest tok :: rqs) st) Hg Hi Hl)
      as (out & Hout).
    rewrite Hout in Hflow.
    destruct out as [e | resp].
    + exists (Callback.error_redirect request). eexists.
      exists (Callback.tokenRequest env request code :: Callback.userRequest tok :: rqs).
      split; [apply GET_caught with (code := code); eauto |].
      rewrite Hh; cbn. now rewrite <- app_assoc.
    + exists resp. eexists.
      exists (Callback.tokenRequest env request code :: Callback.userRequest tok :: rqs).
      split; [apply GET_passed with (code := code); eauto |].
      rewrite Hh; cbn. now rewrite <- app_assoc.
  - intros Hdi Hdl. unfold handoff; cbn [body]. f_equal.
    destruct Hid as ((tokenData & r & _ & _ & _ & _ & Htt) & _ & _ & Ht).
    rewrite !JSON_stringify_Obj_cons; auto using truthy_defined.
  - intros Href.
    assert (Hfail : Callback.flow_failure env world request code st)
      by (rewrite Hh in Href; eapply Callback.backend_refused; eauto).
    destruct (flow_failure_raises env world request code st Hfail) as (e & st' & Hf).
    exists e, st'. now apply GET_caught with (code := code).
Qed.

Lemma callback_backend_handoff_witness :
  exists resp st' rqs,
    Callback.GET Sample.env
      (Sample.world (Sample.answer 200 Sample.token_doc)
         (Sample.answer 200 (Sample.profile_doc (JS.Str "octocat@b2b.example")))
         Rejected
         (Sample.answer 401 (JS.Obj [("detail", JS.Str "Not a moderator")])))
      (Sample.request [("code", "4b1d"); ("state", "k3x9")]) no_effects
    = (inr resp, st') /\
    fetches st'
    = (rqs ++
       [{| url := "https://api.b2b.example/api/auth/github-oauth";
           method := "POST";
           req_headers := [("Content-Type", "application/json")];
           body := JsonBody
                     (JS.Obj [("access_token", JS.Str "gho_16C7e42F");
                              ("email", JS.Str "octocat@b2b.example");
                              ("github_id", JS.Num 583231);
                              ("username", JS.Str "octocat")]) |}])%list.
Proof.
  destruct (callback_backend_handoff Sample.env
              (Sample.world (Sample.answer 200 Sample.token_doc)
                 (Sample.answer 200 (Sample.profile_doc (JS.Str "octocat@b2b.example")))
                 Rejected
                 (Sample.answer 401 (JS.Obj [("detail", JS.Str "Not a moderator")])))
              (Sample.request [("code", "4b1d"); ("state", "k3x9")]) "4b1d" no_effects
              (JS.Str "gho_16C7e42F")
              (Sample.profile_doc (JS.Str "octocat@b2b.example"))
              (JS.Str "octocat@b2b.example") (JS.Num 583231) (JS.Str "octocat"))
    as (Hsent & _ & _).
  - reflexivity.
  - discriminate.
  - split; [| split; [| split]].
    + exists Sample.token_doc.
      exists {| status := 200; payload := Some Sample.token_doc |}.
      repeat split; reflexivity.
    + exists {| status := 200;
                payload := Some (Sample.profile_doc (JS.Str "octocat@b2b.example")) |}.
      repeat split; reflexivity.
    + apply Callback.public_email; reflexivity.
    + reflexivity.
  - reflexivity.
  - reflexivity.
  - exact Hsent.
Defined.

(* ================================================================== *)
(** ** The claim about the authorize handler *)

(** C8. Without a client identifier ([GITHUB_CLIENT_ID] unset or empty) the
    authorize handler answers 500 with a JSON body whose [error] field
    carries the message, and no [Location]; with one, it answers with a
    redirect to the provider's authorization URL, built from the client
    identifier, the callback URL, the scope and the state. *)
Theorem authorize_client_id env random36 request :
  (falsy_string (GITHUB_CLIENT_ID env) = true ->
   Authorize.GET env random36 request
   = {| res_status := 500;
        res_location := None;
        res_json := Some (JS.Obj [("error", JS.Str "GITHUB_CLIENT_ID is not configured")]);
        res_cookies := [] |}) /\
  (forall clientId,
      GITHUB_CLIENT_ID env = Some clientId ->
      clientId <> "" ->
      Authorize.GET env random36 request
      = {| res_status := 307;
           res_location :=
             Some ("https://github.com/login/oauth/authorize?client_id="
                   ++ Authorize.urlencode clientId
                   ++ "&redirect_uri="
                   ++ Authorize.urlencode
                        (or_else (headers_get (headers request) "origin")
                           (or_else (headers_get (headers request) "referer")
                              "http://localhost:3000")
                         ++ "/api/github/callback")
                   ++ "&scope=user%3Aemail&state="
                   ++ Authorize.urlencode (Authorize.substring_from 7 random36));
           res_json := None;
           res_cookies := [] |}).
Proof.
  split.
  - unfold Authorize.GET, falsy_string.
    destruct (GITHUB_CLIENT_ID env) as [clientId |]; [intros -> |]; reflexivity.
  - intros clientId Hid Hne.
    unfold Authorize.GET; rewrite Hid.
    apply String.eqb_neq in Hne; rewrite Hne.
    reflexivity.
Qed.

Lemma authorize_client_id_witness :
  Authorize.GET
    {| GITHUB_CLIENT_ID := None; GITHUB_CLIENT_SECRET := None;
       NEXT_PUBLIC_API_URL := None; NODE_ENV := None |}
    "0.4fzyo82mvyr" (Sample.request [])
  = {| res_status := 500;
       res_location := None;
       res_json := Some (JS.Obj [("error", JS.Str "GITHUB_CLIENT_ID is not configured")]);
       res_cookies := [] |}
  /\
  Authorize.GET Sample.env "0.4fzyo82mvyr" (Sample.request [])
  = {| res_status := 307;
       res_location :=
         Some "https://github.com/login/oauth/authorize?client_id=Iv1.8a61f9b3a7aba766&redirect_uri=https%3A%2F%2Fb2b.example%2Flogin%2Fapi%2Fgithub%2Fcallback&scope=user%3Aemail&state=82mvyr";
       res_json := None;
       res_cookies := [] |}.
Proof.
  split.
  - apply (proj1 (authorize_client_id
                    {| GITHUB_CLIENT_ID := None; GITHUB_CLIENT_SECRET := None;
                       NEXT_PUBLIC_API_URL := None; NODE_ENV := None |}
                    "0.4fzyo82mvyr" (Sample.request []))).
    reflexivity.
  - rewrite (proj2 (authorize_client_id Sample.env "0.4fzyo82mvyr" (Sample.request []))
               "Iv1.8a61f9b3a7aba766" eq_refl); [reflexivity | discriminate].
Defined.

(* ================================================================== *)
(** ** Further properties of the callback handler *)

(** The [try] block always sends the token request first; what follows is
    one of the sequences of [later_calls]; it writes nothing on the console. *)
Lemma flow_trace env world request code st :
  exists out rest,
    Callback.flow env world request code st
    = (out, sent (Callback.tokenRequest env request code :: rest) st) /\
    In (map url rest) (later_calls env).
Proof.
  unfold Callback.flow, Callback.exchangeToken, Callback.fetchProfile,
    Callback.resolveEmail, Callback.lookupPrimaryEmail, Callback.requireEmail,
    Callback.backendHandoff, Callback.establishSession,
    bind, fetch, json, lift, ret, throw.
  split_run.
  all: rewrite ?sent_sent; cbn [app].
  all: do 2 eexists; split; [reflexivity |].
  all: cbn; tauto.
Qed.

Lemma app_eq_self {A} (l r : list A) : (l ++ r = l)%list -> r = [].
Proof.
  intros H. apply (app_inv_head l). now rewrite app_nil_r.
Qed.

Lemma get_first_code pre c post :
  Forall (fun kv : string * string => fst kv <> "code") pre ->
  searchParams_get (pre ++ ("code", c) :: post) "code" = Some c.
Proof.
  unfold searchParams_get.
  induction 1 as [| [k v] pre Hk _ IH]; cbn; [reflexivity |].
  cbn in Hk. apply String.eqb_neq in Hk. now rewrite Hk.
Qed.

(** X1. In every run of the callback handler the outbound calls are made in
    the order token, profile, email list, backend, each at most once, so
    never more than four: no call at all; or the token request alone; or the
    token request and the profile call, followed by nothing, by the
    email-list call, by the backend call, or by both in this order. *)
Theorem callback_calls_in_order env world request st :
  let T := "https://github.com/login/oauth/access_token" in
  let U := "https://api.github.com/user" in
  let E := "https://api.github.com/user/emails" in
  let B := or_else (NEXT_PUBLIC_API_URL env) "http://localhost:8000"
           ++ "/api/auth/github-oauth" in
  exists resp st' rqs,
    Callback.GET env world request st = (inr resp, st') /\
    fetches st' = (fetches st ++ rqs)%list /\
    (List.length rqs <= 4)%nat /\
    In (map url rqs) [ []; [T]; [T; U]; [T; U; E]; [T; U; B]; [T; U; E; B] ] /\
    (rqs = [] \/
     exists code rest,
       searchParams_get (searchParams (nextUrl request)) "code" = Some code /\
       rqs = Callback.tokenRequest env request code :: rest /\
       In (map url rest) (later_calls env)).
Proof.
  intros T U E B.
  assert (Hnone : forall resp,
             Callback.GET env world request st = (inr resp, st) ->
             exists resp st' rqs,
               Callback.GET env world request st = (inr resp, st') /\
               fetches st' = (fetches st ++ rqs)%list /\
               (List.length rqs <= 4)%nat /\
               In (map url rqs) [ []; [T]; [T; U]; [T; U; E]; [T; U; B]; [T; U; E; B] ] /\
               (rqs = [] \/
                exists code rest,
                  searchParams_get (searchParams (nextUrl request)) "code" = Some code /\
                  rqs = Callback.tokenRequest env request code :: rest /\
                  In (map url rest) (later_calls env))).
  { intros resp H. exists resp, st, []; repeat split.
    - exact H.
    - now rewrite app_nil_r.
    - cbn; lia.
    - cbn; auto.
    - now left. }
  destruct (searchParams_get (searchParams (nextUrl request)) "code")
    as [code |] eqn:Hc.
  - destruct (String.eqb_spec code "") as [-> | Hne].
    + apply (Hnone (Callback.error_redirect request)).
      apply GET_without_code; now rewrite Hc.
    + destruct (flow_trace env world request code st) as (out & rest & Hf & Hin).
      assert (Hshape :
                (List.length (Callback.tokenRequest env request code :: rest) <= 4)%nat /\
                In (map url (Callback.tokenRequest env request code :: rest))
                  [ []; [T]; [T; U]; [T; U; E]; [T; U; B]; [T; U; E; B] ]).
      { cbn [List.length map]. rewrite <- (length_map url rest).
        change (url (Callback.tokenRequest env request code)) with T.
        cbn in Hin. fold U E in Hin. fold B in Hin.
        decompose [or] Hin; try contradiction;
          match goal with H : _ = map url rest |- _ => rewrite <- H end;
          (split; [cbn; lia | cbn; tauto]). }
      destruct Hshape as (Hlen & Hurls).
      destruct out as [e | resp].
      * exists (Callback.error_redirect request). eexists.
        exists (Callback.tokenRequest env request code :: rest).
        split; [apply GET_caught with (code := code); eauto |].
        split; [reflexivity |]. split; [exact Hlen |]. split; [exact Hurls |].
        right; eauto.
      * exists resp. eexists.
        exists (Callback.tokenRequest env request code :: rest).
        split; [apply GET_passed with (code := code); eauto |].
        split; [reflexivity |]. split; [exact Hlen |]. split; [exact Hurls |].
        right; eauto.
  - apply (Hnone (Callback.error_redirect request)).
    apply GET_without_code; now rewrite Hc.
Qed.

(** X2. The callback handler makes no outbound call exactly when the [code]
    parameter is missing or empty. *)
Theorem callback_calls_iff_code env world request st :
  fetches (snd (Callback.GET env world request st)) = fetches st
  <-> falsy_string (searchParams_get (searchParams (nextUrl request)) "code") = true.
Proof.
  split.
  - intros H.
    destruct (searchParams_get (searchParams (nextUrl request)) "code")
      as [code |] eqn:Hc; [| reflexivity].
    cbn. destruct (String.eqb_spec code "") as [-> | Hne]; [reflexivity |].
    exfalso.
    destruct (flow_trace env world request code st) as (out & rest & Hf & _).
    destruct out as [e | resp].
    + rewrite (GET_caught env world request code st e _ Hc Hne Hf) in H.
      cbn in H. apply app_eq_self in H. discriminate.
    + rewrite (GET_passed env world request code st resp _ Hc Hne Hf) in H.
      cbn in H. apply app_eq_self in H. discriminate.
  - intros H. now rewrite (GET_without_code env world request st H).
Qed.

(** X3. A cookie is set exactly on the redirect to /moderator: there the
    response carries the one cookie [auth_token] and nothing is written on
    the console.  The error redirect carries no cookie; it comes with exactly
    one console line when a code was given, and with none otherwise. *)
Theorem callback_cookie_and_log env world request st :
  exists resp st',
    Callback.GET env world request st = (inr resp, st') /\
    ((res_location resp
      = Some (origin (nextUrl request) ++ "/login?error=github_oauth_failed") /\
      res_cookies resp = [] /\
      (console st' = console st /\
       falsy_string (searchParams_get (searchParams (nextUrl request)) "code") = true
       \/
       (exists e, console st' = (console st ++ [("GitHub OAuth error:", e)])%list) /\
       falsy_string (searchParams_get (searchParams (nextUrl request)) "code") = false))
     \/
     (res_location resp = Some (origin (nextUrl request) ++ "/moderator") /\
      (exists token production,
          res_cookies resp
          = [{| name := "auth_token"; value := token; httpOnly := true;
                secure := production; sameSite := "lax"; path := "/";
                maxAge := 604800 |}]) /\
      console st' = console st /\
      falsy_string (searchParams_get (searchParams (nextUrl request)) "code") = false)).
Proof.
  destruct (falsy_string (searchParams_get (searchParams (nextUrl request)) "code"))
    eqn:Hfalsy.
  - exists (Callback.error_redirect request), st; split.
    + now apply GET_without_code.
    + left; repeat split; auto.
  - destruct (searchParams_get (searchParams (nextUrl request)) "code")
      as [code |] eqn:Hc; [| discriminate].
    cbn in Hfalsy. apply String.eqb_neq in Hfalsy.
    destruct (flow_trace env world request code st) as (out & rest & Hf & _).
    destruct out as [e | resp].
    + exists (Callback.error_redirect request). eexists; split.
      * apply GET_caught with (code := code); eauto.
      * left; split; [reflexivity | split; [reflexivity |]].
        right; split; [exists e; reflexivity | reflexivity].
    + exists resp. eexists; split.
      * apply GET_passed with (code := code); eauto.
      * right. apply flow_shape in Hf as (token & ->).
        split; [reflexivity | split; [| split; [reflexivity |]]].
        -- do 2 eexists; reflexivity.
        -- reflexivity.
Qed.

(** X4. Of several [code] parameters the first one counts: the run is the
    run of the request that carries this code as its only parameter. *)
Theorem callback_first_code_wins env world request st pre c post :
  searchParams (nextUrl request) = (pre ++ ("code", c) :: post)%list ->
  Forall (fun kv : string * string => fst kv <> "code") pre ->
  Callback.GET env world request st
  = Callback.GET env world (with_searchParams request [("code", c)]) st.
Proof.
  intros Hp Hpre. apply GET_ext; [reflexivity |].
  rewrite Hp, (get_first_code pre c post Hpre). reflexivity.
Qed.

Lemma callback_first_code_wins_witness :
  Callback.GET Sample.env (fun _ => Rejected)
    (Sample.request [("state", "k3x9"); ("code", "4b1d"); ("code", "ffff")]) no_effects
  = Callback.GET Sample.env (fun _ => Rejected)
      (with_searchParams
         (Sample.request [("state", "k3x9"); ("code", "4b1d"); ("code", "ffff")])
         [("code", "4b1d")]) no_effects.
Proof.
  apply (callback_first_code_wins Sample.env (fun _ => Rejected)
           (Sample.request [("state", "k3x9"); ("code", "4b1d"); ("code", "ffff")])
           no_effects [("state", "k3x9")] "4b1d" [("code", "ffff")]).
  - reflexivity.
  - repeat constructor. discriminate.
Defined.

(** The token exchange sends its request whatever the answer. *)
Lemma exchangeToken_sends env world request code st :
  exists out,
    Callback.exchangeToken env world request code st
    = (out, sent [Callback.tokenRequest env request code] st).
Proof.
  unfold Callback.exchangeToken, bind, fetch, json, lift, ret, throw.
  split_run; eexists; reflexivity.
Qed.

(** The profile fetch sends its request whatever the answer. *)
Lemma fetchProfile_sends world tokenData tok st :
  JS.getProp tokenData "access_token" = inr tok ->
  exists out,
    Callback.fetchProfile world tokenData st
    = (out, sent [Callback.userRequest tok] st).
Proof.
  intros Hg.
  unfold Callback.fetchProfile, bind, fetch, json, lift, ret, throw; rewrite Hg.
  split_run; eexists; reflexivity.
Qed.

(** X5. The handler does not check the session token: when the backend
    answers the handoff with success and a document that has no
    [access_token], the run still ends in the redirect to /moderator, with
    the cookie [auth_token] set to [undefined]. *)
Theorem callback_unchecked_session_token
  env world request code st tok userData email id login r authData :
  searchParams_get (searchParams (nextUrl request)) "code" = Some code ->
  code <> "" ->
  Callback.identity_established env world request code tok userData email ->
  JS.getProp userData "id" = inr id ->
  JS.getProp userData "login" = inr login ->
  world (Callback.backendRequest env tok email id login) = Resolved r ->
  ok r = true ->
  payload r = Some authData ->
  JS.getProp authData "access_token" = inr JS.Undefined ->
  exists production st',
    Callback.GET env world request st
    = (inr {| res_status := 307;
              res_location := Some (origin (nextUrl request) ++ "/moderator");
              res_json := None;
              res_cookies :=
                [{| name := "auth_token"; value := JS.Undefined; httpOnly := true;
                    secure := production; sameSite := "lax"; path := "/";
                    maxAge := 604800 |}] |},
       st').
Proof.
  intros Hc Hne Hid Hi Hl Hw Hok Hp Ht.
  destruct (flow_identity env world request code tok userData email st Hid)
    as (tokenData & rqs & Hg & Hflow).
  rewrite (bind_inr _ _ _ _ _
             (backendHandoff_accepted env world _ _ _ _ _ _ _ _ Hg Hi Hl Hw Hok))
    in Hflow.
  rewrite (establishSession_set env request _ _ _ _ Hp Ht) in Hflow.
  do 2 eexists.
  apply GET_passed with (code := code); [exact Hc | exact Hne |].
  rewrite Hflow; reflexivity.
Qed.

Lemma callback_unchecked_session_token_witness :
  exists st',
    Callback.GET Sample.env
      (Sample.world (Sample.answer 200 Sample.token_doc)
         (Sample.answer 200 (Sample.profile_doc (JS.Str "octocat@b2b.example")))
         Rejected
         (Sample.answer 200 (JS.Obj [("detail", JS.Str "pending approval")])))
      (Sample.request [("code", "4b1d")]) no_effects
    = (inr {| res_status := 307;
              res_location := Some "https://b2b.example/moderator";
              res_json := None;
              res_cookies :=
                [{| name := "auth_token"; value := JS.Undefined; httpOnly := true;
                    secure := true; sameSite := "lax"; path := "/";
                    maxAge := 604800 |}] |},
       st').
Proof.
  destruct (callback_unchecked_session_token Sample.env
              (Sample.world (Sample.answer 200 Sample.token_doc)
                 (Sample.answer 200 (Sample.profile_doc (JS.Str "octocat@b2b.example")))
                 Rejected
                 (Sample.answer 200 (JS.Obj [("detail", JS.Str "pending approval")])))
              (Sample.request [("code", "4b1d")]) "4b1d" no_effects
              (JS.Str "gho_16C7e42F")
              (Sample.profile_doc (JS.Str "octocat@b2b.example"))
              (JS.Str "octocat@b2b.example") (JS.Num 583231) (JS.Str "octocat")
              {| status := 200;
                 payload := Some (JS.Obj [("detail", JS.Str "pending approval")]) |}
              (JS.Obj [("detail", JS.Str "pending approval")]))
    as (production & st' & H); try reflexivity.
  - discriminate.
  - split; [| split; [| split]].
    + exists Sample.token_doc.
      exists {| status := 200; payload := Some Sample.token_doc |}.
      repeat split; reflexivity.
    + exists {| status := 200;
                payload := Some (Sample.profile_doc (JS.Str "octocat@b2b.example")) |}.
      repeat split; reflexivity.
    + apply Callback.public_email; reflexivity.
    + reflexivity.
  - exists st'. rewrite H.
    assert (Hrun : fst (Callback.GET Sample.env
                     (Sample.world (Sample.answer 200 Sample.token_doc)
                        (Sample.answer 200 (Sample.profile_doc (JS.Str "octocat@b2b.example")))
                        Rejected
                        (Sample.answer 200 (JS.Obj [("detail", JS.Str "pending approval")])))
                     (Sample.request [("code", "4b1d")]) no_effects)
                   = inr {| res_status := 307;
                            res_location := Some "https://b2b.example/moderator";
                            res_json := None;
                            res_cookies :=
                              [{| name := "auth_token"; value := JS.Undefined;
                                  httpOnly := true; secure := true; sameSite := "lax";
                                  path := "/"; maxAge := 604800 |}] |})
      by reflexivity.
    rewrite H in Hrun; cbn in Hrun. injection Hrun as ->. reflexivity.
Defined.

(** X6. With a truthy [email] in the profile the email list is not asked
    for: the run makes exactly three calls, token, profile and backend, and
    the backend receives the profile's email as it is. *)
Theorem callback_public_email
  env world request code st tokenData tok userData email id login :
  searchParams_get (searchParams (nextUrl request)) "code" = Some code ->
  code <> "" ->
  Callback.token_granted env world request code tokenData tok ->
  Callback.profile_fetched world tok userData ->
  JS.getProp userData "email" = inr email ->
  JS.truthy email = true ->
  JS.getProp userData "id" = inr id ->
  JS.getProp userData "login" = inr login ->
  exists resp st',
    Callback.GET env world request st = (inr resp, st') /\
    fetches st'
    = (fetches st ++ [Callback.tokenRequest env request code;
                      Callback.userRequest tok;
                      Callback.backendRequest env tok email id login])%list.
Proof.
  intros Hc Hne Htok Hprof He Ht Hi Hl.
  assert (Hg : JS.getProp tokenData "access_token" = inr tok)
    by (destruct Htok as (r & _ & _ & _ & Hg & _); exact Hg).
  assert (Hflow :
            exists out,
              Callback.flow env world request code st
              = (out, sent [Callback.tokenRequest env request code;
                            Callback.userRequest tok;
                            Callback.backendRequest env tok email id login] st)).
  { unfold Callback.flow.
    rewrite (bind_inr _ _ _ _ _ (exchangeToken_granted _ _ _ _ _ _ st Htok)).
    rewrite (bind_inr _ _ _ _ _ (fetchProfile_fetched _ _ _ _ _ Hg Hprof)).
    rewrite (bind_inr _ _ _ _ _ (resolveEmail_public _ _ _ _ _ He Ht)).
    rewrite (bind_inr _ _ _ _ _ (requireEmail_truthy _ _ Ht)).
    rewrite sent_sent; cbn [app].
    destruct (handoff_then_session env world request tokenData tok userData email
                id login
                (sent [Callback.tokenRequest env request code;
                       Callback.userRequest tok] st) Hg Hi Hl)
      as (out & Hout).
    exists out. etransitivity; [exact Hout |].
    now rewrite sent_sent. }
  destruct Hflow as ([e | resp] & Hflow).
  - exists (Callback.error_redirect request). eexists; split.
    + apply GET_caught with (code := code); eauto.
    + reflexivity.
  - exists resp. eexists; split.
    + apply GET_passed with (code := code); eauto.
    + reflexivity.
Qed.

Lemma callback_public_email_witness :
  exists resp st',
    Callback.GET Sample.env
      (Sample.world (Sample.answer 200 Sample.token_doc)
         (Sample.answer 200 (Sample.profile_doc (JS.Str "octocat@b2b.example")))
         (Sample.answer 200 Sample.emails_doc)
         (Sample.answer 200 Sample.session_doc))
      (Sample.request [("code", "4b1d")]) no_effects
    = (inr resp, st') /\
    map url (fetches st')
    = ["https://github.com/login/oauth/access_token";
       "https://api.github.com/user";
       "https://api.b2b.example/api/auth/github-oauth"].
Proof.
  destruct (callback_public_email Sample.env
              (Sample.world (Sample.answer 200 Sample.token_doc)
                 (Sample.answer 200 (Sample.profile_doc (JS.Str "octocat@b2b.example")))
                 (Sample.answer 200 Sample.emails_doc)
                 (Sample.answer 200 Sample.session_doc))
              (Sample.request [("code", "4b1d")]) "4b1d" no_effects
              Sample.token_doc (JS.Str "gho_16C7e42F")
              (Sample.profile_doc (JS.Str "octocat@b2b.example"))
              (JS.Str "octocat@b2b.example") (JS.Num 583231) (JS.Str "octocat"))
    as (resp & st' & H & Hf); try reflexivity.
  - discriminate.
  - exists {| status := 200; payload := Some Sample.token_doc |}.
    repeat split; reflexivity.
  - exists {| status := 200;
              payload := Some (Sample.profile_doc (JS.Str "octocat@b2b.example")) |}.
    repeat split; reflexivity.
  - exists resp, st'; split; [exact H |]. rewrite Hf. reflexivity.
Defined.

(** X7. The run stops at the first step that fails: a refused token
    exchange is the only call of its run, and a refused profile fetch is the
    second and last one; the email list and the backend are not called. *)
Theorem callback_stops_at_first_failure env world request code st :
  searchParams_get (searchParams (nextUrl request)) "code" = Some code ->
  code <> "" ->
  (refused (world (Callback.tokenRequest env request code)) ->
   fetches (snd (Callback.GET env world request st))
   = (fetches st ++ [Callback.tokenRequest env request code])%list) /\
  (forall tokenData tok,
      Callback.token_granted env world request code tokenData tok ->
      refused (world (Callback.userRequest tok)) ->
      fetches (snd (Callback.GET env world request st))
      = (fetches st ++ [Callback.tokenRequest env request code;
                        Callback.userRequest tok])%list).
Proof.
  intros Hc Hne; split.
  - intros Href.
    destruct (exchangeToken_refused env world request code st Href) as (e & st' & He).
    destruct (exchangeToken_sends env world request code st) as (out & Hout).
    rewrite Hout in He; injection He as -> <-.
    rewrite (GET_caught env world request code st e
               (sent [Callback.tokenRequest env request code] st) Hc Hne).
    + reflexivity.
    + unfold Callback.flow. now rewrite (bind_inl _ _ _ _ _ Hout).
  - intros tokenData tok Htok Href.
    assert (Hg : JS.getProp tokenData "access_token" = inr tok)
      by (destruct Htok as (r & _ & _ & _ & Hg & _); exact Hg).
    destruct (fetchProfile_refused world tokenData tok
                (sent [Callback.tokenRequest env request code] st) Hg Href)
      as (e & st' & He).
    destruct (fetchProfile_sends world tokenData tok
                (sent [Callback.tokenRequest env request code] st) Hg)
      as (out & Hout).
    rewrite Hout in He; injection He as -> <-.
    rewrite (GET_caught env world request code st e
               (sent [Callback.userRequest tok]
                  (sent [Callback.tokenRequest env request code] st)) Hc Hne).
    + cbn. now rewrite <- app_assoc.
    + unfold Callback.flow.
      rewrite (bind_inr _ _ _ _ _ (exchangeToken_granted _ _ _ _ _ _ st Htok)).
      now rewrite (bind_inl _ _ _ _ _ Hout).
Qed.

Lemma callback_stops_at_first_failure_witness :
  map url
    (fetches
       (snd (Callback.GET Sample.env
               (Sample.world (Sample.answer 200 Sample.token_doc)
                  (Sample.answer 401 (JS.Obj [("message", JS.Str "Bad credentials")]))
                  (Sample.answer 200 Sample.emails_doc)
                  (Sample.answer 200 Sample.session_doc))
               (Sample.request [("code", "4b1d")]) no_effects)))
  = ["https://github.com/login/oauth/access_token"; "https://api.github.com/user"].
Proof.
  rewrite (proj2 (callback_stops_at_first_failure Sample.env
                    (Sample.world (Sample.answer 200 Sample.token_doc)
                       (Sample.answer 401 (JS.Obj [("message", JS.Str "Bad credentials")]))
                       (Sample.answer 200 Sample.emails_doc)
                       (Sample.answer 200 Sample.session_doc))
                    (Sample.request [("code", "4b1d")]) "4b1d" no_effects
                    eq_refl ltac:(discriminate))
             Sample.token_doc (JS.Str "gho_16C7e42F")).
  - reflexivity.
  - exists {| status := 200; payload := Some Sample.token_doc |}.
    repeat split; reflexivity.
  - right. eexists; split; reflexivity.
Defined.

(** X8. The body of the token answer is parsed before its status is looked
    at: an answer whose body is not JSON ends the run in the error redirect
    with a [SyntaxError] on the console, whatever its status, after this one
    call. *)
Theorem callback_unparsable_token_answer env world request code st r :
  searchParams_get (searchParams (nextUrl request)) "code" = Some code ->
  code <> "" ->
  world (Callback.tokenRequest env request code) = Resolved r ->
  payload r = None ->
  Callback.GET env world request st
  = (inr {| res_status := 307;
            res_location :=
              Some (origin (nextUrl request) ++ "/login?error=github_oauth_failed");
            res_json := None;
            res_cookies := [] |},
     logged "GitHub OAuth error:" JS.SyntaxError
       (sent [Callback.tokenRequest env request code] st)).
Proof.
  intros Hc Hne Hw Hp.
  apply GET_caught with (code := code); [exact Hc | exact Hne |].
  unfold Callback.flow, Callback.exchangeToken.
  apply bind_inl.
  rewrite (bind_inr _ _ _ _ _ (resolved_fetch _ _ st _ Hw)).
  apply bind_inl. unfold json; now rewrite Hp.
Qed.

Lemma callback_unparsable_token_answer_witness :
  Callback.GET Sample.env
    (Sample.world (Resolved {| status := 502; payload := None |})
       Rejected Rejected Rejected)
    (Sample.request [("code", "4b1d")]) no_effects
  = (inr {| res_status := 307;
            res_location := Some "https://b2b.example/login?error=github_oauth_failed";
            res_json := None;
            res_cookies := [] |},
     logged "GitHub OAuth error:" JS.SyntaxError
       (sent [Callback.tokenRequest Sample.env (Sample.request [("code", "4b1d")]) "4b1d"]
          no_effects)).
Proof.
  apply (callback_unparsable_token_answer Sample.env
           (Sample.world (Resolved {| status := 502; payload := None |})
              Rejected Rejected Rejected)
           (Sample.request [("code", "4b1d")]) "4b1d" no_effects
           {| status := 502; payload := None |}).
  - reflexivity.
  - discriminate.
  - reflexivity.
  - reflexivity.
Defined.

(** The [try] block of two environments that differ in the client secret
    only, in a world that answers both token requests alike. *)
Lemma flow_secret id s1 s2 api mode world request code st :
  world (Callback.tokenRequest
           {| GITHUB_CLIENT_ID := id; GITHUB_CLIENT_SECRET := s1;
              NEXT_PUBLIC_API_URL := api; NODE_ENV := mode |} request code)
  = world (Callback.tokenRequest
             {| GITHUB_CLIENT_ID := id; GITHUB_CLIENT_SECRET := s2;
                NEXT_PUBLIC_API_URL := api; NODE_ENV := mode |} request code) ->
  exists out rest,
    Callback.flow {| GITHUB_CLIENT_ID := id; GITHUB_CLIENT_SECRET := s1;
                     NEXT_PUBLIC_API_URL := api; NODE_ENV := mode |}
      world request code st
    = (out, sent (Callback.tokenRequest
                    {| GITHUB_CLIENT_ID := id; GITHUB_CLIENT_SECRET := s1;
                       NEXT_PUBLIC_API_URL := api; NODE_ENV := mode |} request code
                    :: rest) st) /\
    Callback.flow {| GITHUB_CLIENT_ID := id; GITHUB_CLIENT_SECRET := s2;
                     NEXT_PUBLIC_API_URL := api; NODE_ENV := mode |}
      world request code st
    = (out, sent (Callback.tokenRequest
                    {| GITHUB_CLIENT_ID := id; GITHUB_CLIENT_SECRET := s2;
                       NEXT_PUBLIC_API_URL := api; NODE_ENV := mode |} request code
                    :: rest) st).
Proof.
  intros Hw.
  unfold Callback.flow, Callback.exchangeToken, Callback.fetchProfile,
    Callback.resolveEmail, Callback.lookupPrimaryEmail, Callback.requireEmail,
    Callback.backendHandoff, Callback.establishSession, Callback.backendRequest,
    Callback.backendUrl, Callback.authCookie,
    bind, fetch, json, lift, ret, throw.
  cbn [NEXT_PUBLIC_API_URL NODE_ENV].
  rewrite Hw.
  split_run.
  all: rewrite ?sent_sent; cbn [app].
  all: do 2 eexists; split; reflexivity.
Qed.

(** The calls the [try] block makes after the token request have no
    form-encoded body. *)
Lemma flow_trace_forms env world request code st :
  exists out rest,
    Callback.flow env world request code st
    = (out, sent (Callback.tokenRequest env request code :: rest) st) /\
    Forall (fun rq => forall k, form_field rq k = None) rest.
Proof.
  unfold Callback.flow, Callback.exchangeToken, Callback.fetchProfile,
    Callback.resolveEmail, Callback.lookupPrimaryEmail, Callback.requireEmail,
    Callback.backendHandoff, Callback.establishSession,
    bind, fetch, json, lift, ret, throw.
  split_run.
  all: rewrite ?sent_sent; cbn [app].
  all: do 2 eexists; split; [reflexivity |].
  all: repeat constructor.
Qed.

(** X9. The client secret goes to the token endpoint and nowhere else.
    The token request, the first call of a run with a code, carries the
    secret of the environment in its [client_secret] field (the text
    "undefined" when there is none).  With another secret, in a world that
    answers the token request alike, the handler gives the same response and
    the same console lines, and its outbound calls are the same except for
    the token request itself. *)
Theorem callback_secret_confined env secret world request st :
  (forall code,
      world (Callback.tokenRequest env request code)
      = world (Callback.tokenRequest (with_secret env secret) request code)) ->
  exists resp st1 st2,
    Callback.GET env world request st = (inr resp, st1) /\
    Callback.GET (with_secret env secret) world request st = (inr resp, st2) /\
    console st1 = console st2 /\
    (fetches st1 = fetches st /\ fetches st2 = fetches st
     \/
     exists code rest,
       fetches st1
       = (fetches st ++ Callback.tokenRequest env request code :: rest)%list /\
       fetches st2
       = (fetches st
          ++ Callback.tokenRequest (with_secret env secret) request code :: rest)%list /\
       form_field (Callback.tokenRequest env request code) "client_secret"
       = Some (match GITHUB_CLIENT_SECRET env with
               | Some s => s
               | None => "undefined"
               end) /\
       form_field (Callback.tokenRequest (with_secret env secret) request code)
         "client_secret"
       = Some (match secret with
               | Some s => s
               | None => "undefined"
               end) /\
       (forall rq, In rq rest -> form_field rq "client_secret" = None)).
Proof.
  intros Hw.
  destruct (searchParams_get (searchParams (nextUrl request)) "code")
    as [code |] eqn:Hc.
  - destruct (String.eqb_spec code "") as [-> | Hne].
    + exists (Callback.error_redirect request), st, st.
      rewrite !GET_without_code by now rewrite Hc.
      split; [reflexivity | split; [reflexivity | split; [reflexivity |]]].
      left; split; reflexivity.
    + specialize (Hw code).
      destruct (flow_trace_forms env world request code st)
        as (out0 & rest0 & Hf0 & Hforms).
      destruct env as [id s1 api mode]; unfold with_secret in *; cbn in Hw |- *.
      destruct (flow_secret id s1 secret api mode world request code st Hw)
        as (out & rest & H1 & H2).
      assert (Hrest : forall rq, In rq rest -> form_field rq "client_secret" = None).
      { rewrite H1 in Hf0. injection Hf0 as _ Hs.
        apply app_inv_head in Hs. injection Hs as ->.
        intros rq Hrq. rewrite Forall_forall in Hforms. now apply Hforms. }
      destruct out as [e | resp].
      * exists (Callback.error_redirect request). do 2 eexists.
        split; [apply GET_caught with (code := code); eauto |].
        split; [apply GET_caught with (code := code); eauto |].
        split; [reflexivity |]. right. exists code, rest.
        repeat split; try reflexivity. exact Hrest.
      * exists resp. do 2 eexists.
        split; [apply GET_passed with (code := code); eauto |].
        split; [apply GET_passed with (code := code); eauto |].
        split; [reflexivity |]. right. exists code, rest.
        repeat split; try reflexivity. exact Hrest.
  - exists (Callback.error_redirect request), st, st.
    rewrite !GET_without_code by now rewrite Hc.
    split; [reflexivity | split; [reflexivity | split; [reflexivity |]]].
    left; split; reflexivity.
Qed.

Lemma callback_secret_confined_witness :
  fst (Callback.GET Sample.env
         (Sample.world (Sample.answer 200 Sample.token_doc)
            (Sample.answer 200 (Sample.profile_doc JS.Null))
            (Sample.answer 200 Sample.emails_doc)
            (Sample.answer 200 Sample.session_doc))
         (Sample.request [("code", "4b1d")]) no_effects)
  = fst (Callback.GET (with_secret Sample.env (Some "r0tated"))
           (Sample.world (Sample.answer 200 Sample.token_doc)
              (Sample.answer 200 (Sample.profile_doc JS.Null))
              (Sample.answer 200 Sample.emails_doc)
              (Sample.answer 200 Sample.session_doc))
           (Sample.request [("code", "4b1d")]) no_effects)
  /\
  map (fun rq => form_field rq "client_secret")
    (fetches
       (snd (Callback.GET (with_secret Sample.env (Some "r0tated"))
               (Sample.world (Sample.answer 200 Sample.token_doc)
                  (Sample.answer 200 (Sample.profile_doc JS.Null))
                  (Sample.answer 200 Sample.emails_doc)
                  (Sample.answer 200 Sample.session_doc))
               (Sample.request [("code", "4b1d")]) no_effects)))
  = [Some "r0tated"; None; None; None].
Proof.
  destruct (callback_secret_confined Sample.env (Some "r0tated")
              (Sample.world (Sample.answer 200 Sample.token_doc)
                 (Sample.answer 200 (Sample.profile_doc JS.Null))
                 (Sample.answer 200 Sample.emails_doc)
                 (Sample.answer 200 Sample.session_doc))
              (Sample.request [("code", "4b1d")]) no_effects)
    as (resp & st1 & st2 & H1 & H2 & _).
  - intros code; reflexivity.
  - split; [rewrite H1, H2; reflexivity | reflexivity].
Defined.

(* ================================================================== *)
(** ** Further properties of the authorize handler *)

Lemma substring_from_length n s :
  String.length (Authorize.substring_from n s) = (String.length s - n)%nat.
Proof.
  revert s; induction n as [| n IH]; intros s; cbn.
  - now rewrite Nat.sub_0_r.
  - destruct s as [| c r]; cbn; [reflexivity | apply IH].
Qed.

Lemma length_zero_empty s : String.length s = 0%nat -> s = "".
Proof. destruct s; [reflexivity | discriminate]. Qed.

Lemma occurrences_append c s t :
  occurrences c (s ++ t) = (occurrences c s + occurrences c t)%nat.
Proof.
  induction s as [| a s IH]; cbn; [reflexivity |].
  destruct (a =? c)%char; cbn; now rewrite IH.
Qed.

Lemma hex_digit_unreserved n : Authorize.unreserved (Authorize.hex_digit n) = true.
Proof.
  do 16 (destruct n as [| n]; [reflexivity |]). reflexivity.
Qed.

Lemma unreserved_neq a c :
  Authorize.unreserved a = true -> Authorize.unreserved c = false -> (a =? c)%char = false.
Proof.
  intros Ha Hc. apply Ascii.eqb_neq. intros ->. congruence.
Qed.

(** The serializer writes unreserved characters, "+" and "%" only. *)
Lemma occurrences_urlencode c s :
  Authorize.unreserved c = false -> c <> "+"%char -> c <> "%"%char ->
  occurrences c (Authorize.urlencode s) = 0%nat.
Proof.
  intros Hc Hp Hq.
  assert (Hplus : ("+" =? c)%char = false) by (apply Ascii.eqb_neq; congruence).
  assert (Hpct : ("%" =? c)%char = false) by (apply Ascii.eqb_neq; congruence).
  induction s as [| a s IH]; [reflexivity |].
  cbn [Authorize.urlencode].
  destruct (Authorize.unreserved a) eqn:Ha.
  - cbn [occurrences]. now rewrite (unreserved_neq a c Ha Hc).
  - destruct (a =? " ")%char.
    + cbn [occurrences]. now rewrite Hplus.
    + cbn [occurrences]. rewrite Hpct.
      now rewrite !(unreserved_neq _ c (hex_digit_unreserved _) Hc).
Qed.

Lemma length_append s t :
  String.length (s ++ t) = (String.length s + String.length t)%nat.
Proof. induction s as [| a s IH]; cbn; [reflexivity | now rewrite IH]. Qed.

Lemma append_inv_tail (s t p : string) : s ++ p = t ++ p -> s = t.
Proof.
  revert t; induction s as [| a s IH]; intros [| b t] H; cbn in H.
  - reflexivity.
  - apply (f_equal String.length) in H; cbn in H; rewrite length_append in H; lia.
  - apply (f_equal String.length) in H; cbn in H; rewrite length_append in H; lia.
  - injection H as -> H. f_equal. now apply IH.
Qed.

(** [substring_from n s] is what is left of [s] once its first [n]
    characters (all of them, when there are fewer) are taken away. *)
Lemma substring_from_suffix n s :
  exists dropped,
    s = dropped ++ Authorize.substring_from n s /\
    String.length dropped = Nat.min n (String.length s).
Proof.
  revert s; induction n as [| n IH]; intros s.
  - exists ""; split; reflexivity.
  - destruct s as [| c r].
    + exists ""; split; reflexivity.
    + destruct (IH r) as (dropped & Heq & Hlen).
      exists (String c dropped); split; cbn.
      * now rewrite <- Heq.
      * now rewrite Hlen.
Qed.

(** X10. The [state] the authorize handler sends is the random text without
    its first seven characters: the random text is seven characters (or all
    of its characters, when it has fewer) followed by the state.  So the
    state has seven characters less, and it is empty when the random text
    has seven characters or fewer. *)
Theorem authorize_state env random36 request clientId :
  GITHUB_CLIENT_ID env = Some clientId ->
  clientId <> "" ->
  exists dropped state,
    random36 = dropped ++ state /\
    String.length dropped = Nat.min 7 (String.length random36) /\
    searchParams_get (searchParams (Authorize.authUrl clientId random36 request)) "state"
    = Some state /\
    String.length state = (String.length random36 - 7)%nat /\
    ((String.length random36 <= 7)%nat -> state = "") /\
    res_location (Authorize.GET env random36 request)
    = Some ("https://github.com/login/oauth/authorize?client_id="
            ++ Authorize.urlencode clientId
            ++ "&redirect_uri="
            ++ Authorize.urlencode
                 (or_else (headers_get (headers request) "origin")
                    (or_else (headers_get (headers request) "referer")
                       "http://localhost:3000")
                  ++ "/api/github/callback")
            ++ "&scope=user%3Aemail&state=" ++ Authorize.urlencode state).
Proof.
  intros Hid Hne.
  destruct (substring_from_suffix 7 random36) as (dropped & Heq & Hlen).
  exists dropped, (Authorize.substring_from 7 random36).
  split; [exact Heq |].
  split; [exact Hlen |].
  split; [reflexivity |].
  split; [apply substring_from_length |].
  split.
  - intros Hshort. apply length_zero_empty.
    rewrite substring_from_length. lia.
  - unfold Authorize.GET; rewrite Hid.
    apply String.eqb_neq in Hne; rewrite Hne. reflexivity.
Qed.

Lemma authorize_state_witness :
  res_location (Authorize.GET Sample.env "0.4fzyo82mvyr" (Sample.request []))
  = Some "https://github.com/login/oauth/authorize?client_id=Iv1.8a61f9b3a7aba766&redirect_uri=https%3A%2F%2Fb2b.example%2Flogin%2Fapi%2Fgithub%2Fcallback&scope=user%3Aemail&state=82mvyr".
Proof.
  destruct (authorize_state Sample.env "0.4fzyo82mvyr" (Sample.request [])
              "Iv1.8a61f9b3a7aba766" eq_refl ltac:(discriminate))
    as (dropped & state & Heq & Hlen & _ & _ & _ & Hloc).
  rewrite Hloc.
  do 7 (destruct dropped as [| ? dropped]; [discriminate Hlen |]).
  destruct dropped as [| ? dropped]; [| discriminate Hlen].
  cbn in Heq. injection Heq as _ _ _ _ _ _ _ <-. reflexivity.
Defined.

(** X11. Whatever the client identifier, the headers and the random text
    contain, the address the authorize handler redirects to has one "?",
    exactly three "&" and four "=", and no "#": its query has the four
    parameters and nothing a header value could add. *)
Theorem authorize_query_shape env random36 request clientId :
  GITHUB_CLIENT_ID env = Some clientId ->
  clientId <> "" ->
  exists target,
    res_location (Authorize.GET env random36 request) = Some target /\
    occurrences "?" target = 1%nat /\
    occurrences "&" target = 3%nat /\
    occurrences "=" target = 4%nat /\
    occurrences "#" target = 0%nat.
Proof.
  intros Hid Hne.
  exists ("https://github.com/login/oauth/authorize?client_id="
          ++ Authorize.urlencode clientId
          ++ "&redirect_uri="
          ++ Authorize.urlencode
               (or_else (headers_get (headers request) "origin")
                  (or_else (headers_get (headers request) "referer")
                     "http://localhost:3000")
                ++ "/api/github/callback")
          ++ "&scope=user%3Aemail&state="
          ++ Authorize.urlencode (Authorize.substring_from 7 random36)).
  split.
  - unfold Authorize.GET; rewrite Hid.
    apply String.eqb_neq in Hne; rewrite Hne. reflexivity.
  - repeat split;
      rewrite !occurrences_append;
      rewrite !occurrences_urlencode by (reflexivity || discriminate);
      reflexivity.
Qed.

Lemma authorize_query_shape_witness :
  exists target,
    res_location
      (Authorize.GET Sample.env "0.4fzyo82mvyr"
         {| nextUrl := nextUrl (Sample.request []);
            headers := [("origin", "https://b2b.example&scope=repo#")] |})
    = Some target /\
    occurrences "&" target = 3%nat.
Proof.
  destruct (authorize_query_shape Sample.env "0.4fzyo82mvyr"
              {| nextUrl := nextUrl (Sample.request []);
                 headers := [("origin", "https://b2b.example&scope=repo#")] |}
              "Iv1.8a61f9b3a7aba766" eq_refl ltac:(discriminate))
    as (target & Hloc & _ & Hamp & _).
  exists target; split; [exact Hloc | exact Hamp].
Defined.

(** X12. The [redirect_uri] the authorize handler announces and the one the
    callback handler sends with the token exchange are the same exactly when
    the value the authorize handler takes for the origin (the Origin header,
    else the Referer header as it is, else http://localhost:3000) is the
    origin of the callback request. *)
Theorem oauth_redirect_uri_agrees clientId random36 authorizeRequest env callbackRequest code :
  searchParams_get
    (searchParams (Authorize.authUrl clientId random36 authorizeRequest)) "redirect_uri"
  = form_field (Callback.tokenRequest env callbackRequest code) "redirect_uri"
  <->
  or_else (headers_get (headers authorizeRequest) "origin")
    (or_else (headers_get (headers authorizeRequest) "referer") "http://localhost:3000")
  = origin (nextUrl callbackRequest).
Proof.
  change (Some (or_else (headers_get (headers authorizeRequest) "origin")
                  (or_else (headers_get (headers authorizeRequest) "referer")
                     "http://localhost:3000")
                ++ "/api/github/callback")
          = Some (origin (nextUrl callbackRequest) ++ "/api/github/callback")
          <-> or_else (headers_get (headers authorizeRequest) "origin")
                (or_else (headers_get (headers authorizeRequest) "referer")
                   "http://localhost:3000")
              = origin (nextUrl callbackRequest)).
  split.
  - intros [= H]. now apply append_inv_tail in H.
  - now intros ->.
Qed.
